(** * Falcon 9 second stage debris capture: mission orchestrator and subsystems

    A shallow embedding of [falcon9_debris_capture] (config.py,
    subsystems/power_system.py, subsystems/propulsion.py,
    subsystems/grabbing_system.py, ai_brain.py) and the properties of its
    specification.

    Numbers.  The program computes with Python numbers and numpy float64
    arrays.  They are modelled here by the real numbers [R]: rounding,
    overflow, NaN and the int/float distinction are idealised away, and
    [np.inf] is a separate value of [ExtR].  Every statement below is a
    statement about this real-number reading of the code, except those
    on [Binary64], which holds the arithmetic of the power and propulsion
    systems in binary64 as the program runs it.

    State.  Each Python object with mutable fields is a record; a method
    that mutates [self] takes the record and returns the updated record
    next to its return value. *)

From Stdlib Require Import Reals Lra List String Bool PeanoNat Lia.
From Stdlib Require Import Permutation.
From Stdlib Require Import ZArith.
From Stdlib Require PrimFloat FloatOps SpecFloat.
Import ListNotations.

Open Scope string_scope.
Open Scope list_scope.
Open Scope R_scope.

(** ** Comparisons as booleans *)

Definition Rltb (a b : R) : bool := if Rlt_dec a b then true else false.
Definition Rleb (a b : R) : bool := if Rle_dec a b then true else false.
Definition Rgtb (a b : R) : bool := Rltb b a.
Definition Rgeb (a b : R) : bool := Rleb b a.

(** ** config.py *)

Module Config.
Definition LQR_COARSE_THRESHOLD : R := 500.
Definition MPC_FINE_THRESHOLD : R := 5.
Definition SLIDING_CAPTURE_THRESHOLD : R := 1 / 100.
Definition CAPTURE_TOLERANCE_MM : R := 1.

Definition BATTERY_CAPACITY_KWH : R := 50.
Definition BATTERY_EFFICIENCY : R := 95 / 100.
Definition MAX_DISCHARGE_RATE_KW : R := 10.

Definition MAIN_RCS_THRUST_N : R := 450.
Definition VERNIER_RCS_THRUST_N : R := 50.
Definition RCS_ISP : R := 300.

Definition NET_DEPLOYMENT_TIME_S : R := 3.
Definition NET_RETRACTION_TIME_S : R := 5.
Definition MAX_DEBRIS_MASS_KG : R := 500.
End Config.
Import Config.

(** ** Three-component arrays and [np.linalg.norm] *)

Record Vec3 : Type := mkVec3 { cx : R; cy : R; cz : R }.

Definition zeros3 : Vec3 := mkVec3 0 0 0.

(** [k * v] and [v * k] for a scalar [k] and an array [v]. *)
Definition vscale (k : R) (v : Vec3) : Vec3 :=
  mkVec3 (k * cx v) (k * cy v) (k * cz v).

(** [v / k]. *)
Definition vdiv (v : Vec3) (k : R) : Vec3 :=
  mkVec3 (cx v / k) (cy v / k) (cz v / k).

(** [a - b]. *)
Definition vsub (a b : Vec3) : Vec3 :=
  mkVec3 (cx a - cx b) (cy a - cy b) (cz a - cz b).

(** [np.linalg.norm(v)]: the Euclidean norm. *)
Definition norm (v : Vec3) : R :=
  sqrt (cx v * cx v + cy v * cy v + cz v * cz v).

(** The six-component state [x, y, z, vx, vy, vz]; [state[:3]] is [st_pos]. *)
Record StateVec : Type := mkState { st_pos : Vec3; st_vel : Vec3 }.

(** A distance that may be [np.inf]. *)
Inductive ExtR : Type :=
| Fin (r : R)
| Inf.

(** [r < e] for a finite [r]. *)
Definition lt_ext (r : R) (e : ExtR) : bool :=
  match e with
  | Fin b => Rltb r b
  | Inf => true
  end.

(** ** subsystems/power_system.py *)

Record PowerSystem : Type := mkPower {
  capacity_kwh : R;
  soc : R;
  efficiency : R;
  max_discharge_kw : R
}.

Definition PowerSystem_init : PowerSystem :=
  mkPower BATTERY_CAPACITY_KWH 1 BATTERY_EFFICIENCY MAX_DISCHARGE_RATE_KW.

Definition set_soc (p : PowerSystem) (s : R) : PowerSystem :=
  mkPower (capacity_kwh p) s (efficiency p) (max_discharge_kw p).

(** [request_power]: the delivered power and the updated battery. *)
Definition request_power (p : PowerSystem) (kw dt : R) : R * PowerSystem :=
  let available := Rmin kw (max_discharge_kw p) in
  let energy_kwh := available * dt / 3600 in
  let '(available, energy_kwh) :=
    if Rgtb energy_kwh (soc p * capacity_kwh p)
    then (soc p * capacity_kwh p * 3600 / dt, soc p * capacity_kwh p)
    else (available, energy_kwh) in
  let soc1 := soc p - energy_kwh / capacity_kwh p in
  let soc2 := Rmax 0 soc1 in
  (available * efficiency p, set_soc p soc2).

Definition can_support (p : PowerSystem) (kw : R) : bool :=
  Rgtb (soc p) (1 / 100) && Rleb kw (max_discharge_kw p).

(** The fields that [__init__] takes from config.py and no method writes. *)
Definition power_configured (p : PowerSystem) : Prop :=
  capacity_kwh p = BATTERY_CAPACITY_KWH /\
  max_discharge_kw p = MAX_DISCHARGE_RATE_KW.

(** The energy, in kWh, that [request_power] computes for a request before
    it looks at the charge: the rate-limited power over [dt]. *)
Definition requested_energy (p : PowerSystem) (kw dt : R) : R :=
  Rmin kw (max_discharge_kw p) * dt / 3600.

(** ** subsystems/propulsion.py *)

Record PropulsionSystem : Type := mkPropulsion {
  main_thrust : R;
  vernier_thrust : R;
  isp : R;
  mass_kg : R;
  fuel_kg : R
}.

Definition PropulsionSystem_init (dry_mass_kg : R) : PropulsionSystem :=
  mkPropulsion MAIN_RCS_THRUST_N VERNIER_RCS_THRUST_N RCS_ISP dry_mass_kg 500.

Definition set_fuel_kg (p : PropulsionSystem) (m : R) : PropulsionSystem :=
  mkPropulsion (main_thrust p) (vernier_thrust p) (isp p) (mass_kg p) m.

(** [thrust_from_acceleration]: the pair (force, fuel used) and the updated
    propulsion system.  Both tests read [mag], the magnitude of the force
    before any rescaling. *)
Definition thrust_from_acceleration (p : PropulsionSystem) (accel_mps2 : Vec3)
  : (Vec3 * R) * PropulsionSystem :=
  let f := vscale (mass_kg p) accel_mps2 in
  let mag := norm f in
  let f_max := sqrt 3 * main_thrust p in
  let f := if Rgtb mag f_max then vscale (f_max / mag) f else f in
  let f := if Rltb mag (vernier_thrust p)
           then vscale (vernier_thrust p / (mag + 1e-8)) f else f in
  let dt_flow := 1 / 10 in
  let mdot := norm f / (isp p * 9.81) in
  let fuel_used := mdot * dt_flow in
  ((f, fuel_used), set_fuel_kg p (fuel_kg p - Rmin fuel_used (fuel_kg p))).

Definition has_fuel (p : PropulsionSystem) : bool := Rgtb (fuel_kg p) 1.

(** The fields that [__init__] takes from config.py and no method writes. *)
Definition propulsion_configured (p : PropulsionSystem) : Prop :=
  main_thrust p = MAIN_RCS_THRUST_N /\
  vernier_thrust p = VERNIER_RCS_THRUST_N /\
  isp p = RCS_ISP.

(** ** subsystems/grabbing_system.py *)

Record GrabbingSystem : Type := mkGrabbing {
  net_deployed : bool;
  net_deploying : bool;
  capture_confirmed : bool;
  retracting : bool;
  deploy_timer : R;
  retract_timer : R;
  captured_mass_kg : R;
  deployment_thruster_active : bool
}.

Definition GrabbingSystem_init : GrabbingSystem :=
  mkGrabbing false false false false 0 0 0 false.

Definition deploy_net (g : GrabbingSystem) (dt : R) : bool * GrabbingSystem :=
  if net_deployed g then (true, g)
  else
    let g1 :=
      if negb (net_deploying g)
      then mkGrabbing (net_deployed g) true (capture_confirmed g) (retracting g)
             (deploy_timer g) (retract_timer g) (captured_mass_kg g) true
      else g in
    let g2 :=
      mkGrabbing (net_deployed g1) (net_deploying g1) (capture_confirmed g1)
        (retracting g1) (deploy_timer g1 + dt) (retract_timer g1)
        (captured_mass_kg g1) (deployment_thruster_active g1) in
    let g3 :=
      if Rgeb (deploy_timer g2) NET_DEPLOYMENT_TIME_S
      then mkGrabbing true false (capture_confirmed g2) (retracting g2)
             (deploy_timer g2) (retract_timer g2) (captured_mass_kg g2) false
      else g2 in
    (net_deployed g3, g3).

Definition confirm_capture (g : GrabbingSystem) (m : R) : bool * GrabbingSystem :=
  if Rleb m MAX_DEBRIS_MASS_KG && net_deployed g
  then (true,
        mkGrabbing (net_deployed g) (net_deploying g) true (retracting g)
          (deploy_timer g) (retract_timer g) m (deployment_thruster_active g))
  else (false, g).

Definition retract_net (g : GrabbingSystem) (dt : R) : bool * GrabbingSystem :=
  if negb (capture_confirmed g) then (false, g)
  else
    let g1 :=
      if negb (retracting g)
      then mkGrabbing (net_deployed g) (net_deploying g) (capture_confirmed g) true
             (deploy_timer g) (retract_timer g) (captured_mass_kg g)
             (deployment_thruster_active g)
      else g in
    let g2 :=
      mkGrabbing (net_deployed g1) (net_deploying g1) (capture_confirmed g1)
        (retracting g1) (deploy_timer g1) (retract_timer g1 + dt)
        (captured_mass_kg g1) (deployment_thruster_active g1) in
    (Rgeb (retract_timer g2) NET_RETRACTION_TIME_S, g2).

(** ** ai_brain.py *)

Inductive MissionPhase : Type :=
| PAYLOAD_DEPLOYED
| SEEKING_DEBRIS
| COARSE_APPROACH
| FINE_APPROACH
| CAPTURE
| RETRACTING
| REENTRY
| COMPLETE.

(** The string each [MissionPhase] attribute holds. *)
Definition phase_value (ph : MissionPhase) : string :=
  match ph with
  | PAYLOAD_DEPLOYED => "payload_deployed"
  | SEEKING_DEBRIS => "seeking_debris"
  | COARSE_APPROACH => "coarse_approach"
  | FINE_APPROACH => "fine_approach"
  | CAPTURE => "capture"
  | RETRACTING => "retracting"
  | REENTRY => "reentry"
  | COMPLETE => "complete"
  end.

Definition phase_eqb (a b : MissionPhase) : bool :=
  String.eqb (phase_value a) (phase_value b).

(** A catalog entry [{"pos": ..., "vel": ..., "mass_kg": ...}].  The brain
    reads ["mass_kg"] with [.get("mass_kg", 100)], so the key may be absent. *)
Record Debris : Type := mkDebris {
  d_pos : Vec3;
  d_vel : Vec3;
  d_mass_kg : option R
}.

(** The telemetry dict: the keys ["phase"] and ["control_mode"] are always
    there, ["error"] only on the low-power return. *)
Record Telemetry : Type := mkTelemetry {
  t_phase : string;
  t_control_mode : option string;
  t_error : option string
}.

(** The four controllers of the [controls] package, whose code is outside
    the files modelled here.  Each is an object with private state and a
    [compute_control] method; nothing is assumed of what it computes. *)
Class Controls : Type := {
  LQRController : Type;
  MPCController : Type;
  SlidingModeController : Type;
  AdaptiveController : Type;
  lqr_new : R -> LQRController;
  mpc_new : R -> MPCController;
  smc_new : R -> SlidingModeController;
  adaptive_new : R -> AdaptiveController;
  lqr_compute_control :
    LQRController -> StateVec -> Vec3 -> Vec3 * LQRController;
  mpc_compute_control :
    MPCController -> StateVec -> Vec3 -> Vec3 * MPCController;
  smc_compute_control :
    SlidingModeController -> StateVec -> Vec3 -> Vec3 * SlidingModeController;
  adaptive_compute_control :
    AdaptiveController -> StateVec -> Vec3 -> Vec3 -> Vec3 * AdaptiveController
}.

(** Controllers without state that command no acceleration: the smallest
    implementation of the interface, used to run the brain on examples. *)
Definition idle_controls : Controls := {|
  LQRController := unit;
  MPCController := unit;
  SlidingModeController := unit;
  AdaptiveController := unit;
  lqr_new := fun _ => tt;
  mpc_new := fun _ => tt;
  smc_new := fun _ => tt;
  adaptive_new := fun _ => tt;
  lqr_compute_control := fun c _ _ => (zeros3, c);
  mpc_compute_control := fun c _ _ => (zeros3, c);
  smc_compute_control := fun c _ _ => (zeros3, c);
  adaptive_compute_control := fun c _ _ _ => (zeros3, c)
|}.

Record AIBrain `{Controls} : Type := mkBrain {
  phase : MissionPhase;
  lqr : LQRController;
  mpc : MPCController;
  smc : SlidingModeController;
  adaptive : AdaptiveController;
  power : PowerSystem;
  grabbing : GrabbingSystem;
  propulsion : PropulsionSystem;
  state : StateVec;
  target_debris : option Debris;
  debris_catalog : list Debris
}.

Definition AIBrain_init `{Controls} : AIBrain :=
  mkBrain _ PAYLOAD_DEPLOYED (lqr_new (1 / 10)) (mpc_new (1 / 10))
    (smc_new (1 / 100)) (adaptive_new (1 / 100))
    PowerSystem_init GrabbingSystem_init (PropulsionSystem_init 4000)
    (mkState zeros3 zeros3) None [].

Section Setters.
Context `{Controls}.

Definition set_phase (b : AIBrain) (ph : MissionPhase) : AIBrain :=
  mkBrain _ ph (lqr b) (mpc b) (smc b) (adaptive b) (power b) (grabbing b)
    (propulsion b) (state b) (target_debris b) (debris_catalog b).

Definition set_lqr (b : AIBrain) (c : LQRController) : AIBrain :=
  mkBrain _ (phase b) c (mpc b) (smc b) (adaptive b) (power b) (grabbing b)
    (propulsion b) (state b) (target_debris b) (debris_catalog b).

Definition set_mpc (b : AIBrain) (c : MPCController) : AIBrain :=
  mkBrain _ (phase b) (lqr b) c (smc b) (adaptive b) (power b) (grabbing b)
    (propulsion b) (state b) (target_debris b) (debris_catalog b).

Definition set_smc (b : AIBrain) (c : SlidingModeController) : AIBrain :=
  mkBrain _ (phase b) (lqr b) (mpc b) c (adaptive b) (power b) (grabbing b)
    (propulsion b) (state b) (target_debris b) (debris_catalog b).

Definition set_adaptive (b : AIBrain) (c : AdaptiveController) : AIBrain :=
  mkBrain _ (phase b) (lqr b) (mpc b) (smc b) c (power b) (grabbing b)
    (propulsion b) (state b) (target_debris b) (debris_catalog b).

Definition set_power (b : AIBrain) (p : PowerSystem) : AIBrain :=
  mkBrain _ (phase b) (lqr b) (mpc b) (smc b) (adaptive b) p (grabbing b)
    (propulsion b) (state b) (target_debris b) (debris_catalog b).

Definition set_grabbing (b : AIBrain) (g : GrabbingSystem) : AIBrain :=
  mkBrain _ (phase b) (lqr b) (mpc b) (smc b) (adaptive b) (power b) g
    (propulsion b) (state b) (target_debris b) (debris_catalog b).

Definition set_propulsion (b : AIBrain) (p : PropulsionSystem) : AIBrain :=
  mkBrain _ (phase b) (lqr b) (mpc b) (smc b) (adaptive b) (power b)
    (grabbing b) p (state b) (target_debris b) (debris_catalog b).

Definition set_state (b : AIBrain) (s : StateVec) : AIBrain :=
  mkBrain _ (phase b) (lqr b) (mpc b) (smc b) (adaptive b) (power b)
    (grabbing b) (propulsion b) s (target_debris b) (debris_catalog b).

Definition set_target_debris (b : AIBrain) (t : option Debris) : AIBrain :=
  mkBrain _ (phase b) (lqr b) (mpc b) (smc b) (adaptive b) (power b)
    (grabbing b) (propulsion b) (state b) t (debris_catalog b).
End Setters.

(** [e < r] for a threshold [r]. *)
Definition ext_ltb (e : ExtR) (r : R) : bool :=
  match e with
  | Fin a => Rltb a r
  | Inf => false
  end.

(** [a.size] of a three-component array. *)
Definition size (v : Vec3) : nat := 3.

(** The loop of [identify_nearest_debris] over the rest of the catalog,
    with the loop variables [best] and [best_dist]. *)
Fixpoint nearest_loop (pos : Vec3) (catalog : list Debris)
    (best : option Debris) (best_dist : ExtR) : option Debris :=
  match catalog with
  | [] => best
  | d :: rest =>
      let dist := norm (vsub (d_pos d) pos) in
      if lt_ext dist best_dist
      then nearest_loop pos rest (Some d) (Fin dist)
      else nearest_loop pos rest best best_dist
  end.

Definition identify_nearest_debris (st : StateVec) (catalog : list Debris)
  : option Debris :=
  match catalog with
  | [] => None
  | _ => nearest_loop (st_pos st) catalog None Inf
  end.

(** What a tick returns: the Python method either returns the pair
    (acceleration, telemetry), leaving the brain updated, or raises. *)
Inductive Outcome (A : Type) : Type :=
| Returned (a : A)
| AttributeError.
Arguments Returned {A} a.
Arguments AttributeError {A}.

Section Brain.
Context `{Controls}.

Definition decide_phase (b : AIBrain) (st : StateVec) (target : option Vec3)
  : MissionPhase :=
  match target with
  | None => SEEKING_DEBRIS
  | Some tgt =>
      let dist :=
        if (3 <=? size tgt)%nat then Fin (norm (vsub (st_pos st) tgt)) else Inf in
      if phase_eqb (phase b) COARSE_APPROACH && ext_ltb dist LQR_COARSE_THRESHOLD
      then FINE_APPROACH
      else if phase_eqb (phase b) FINE_APPROACH && ext_ltb dist MPC_FINE_THRESHOLD
      then CAPTURE
      else if phase_eqb (phase b) CAPTURE && ext_ltb dist SLIDING_CAPTURE_THRESHOLD
      then RETRACTING
      else if Rgeb (retract_timer (grabbing b)) 5 && capture_confirmed (grabbing b)
      then REENTRY
      else if phase_eqb (phase b) REENTRY
      then COMPLETE
      else phase b
  end.

(** Lines 86-90 of [compute_control]: pick a target when there is none
    and the catalog is not empty. *)
Definition identify_target (b : AIBrain) (st : StateVec) : AIBrain :=
  match target_debris b, debris_catalog b with
  | None, _ :: _ =>
      let b1 := set_target_debris b (identify_nearest_debris st (debris_catalog b)) in
      match target_debris b1 with
      | Some _ => set_phase b1 COARSE_APPROACH
      | None => b1
      end
  | _, _ => b
  end.

(** Lines 97-119 of [compute_control]: the control computation by phase.
    [u] starts as [np.zeros(3)]; the branches are tried in the order of
    the source. *)
Definition control_by_phase (b : AIBrain) (st : StateVec) (dt : R)
    (target : option Vec3) (telemetry : Telemetry)
  : Outcome (Vec3 * Telemetry * AIBrain) :=
  let mode (m : string) := mkTelemetry (t_phase telemetry) (Some m) (t_error telemetry) in
  match phase b, target with
  | COARSE_APPROACH, Some tgt =>
      let '(u, c) := lqr_compute_control (lqr b) st tgt in
      Returned (u, mode "LQR", set_lqr b c)
  | FINE_APPROACH, Some tgt =>
      let '(u, c) := mpc_compute_control (mpc b) st tgt in
      Returned (u, mode "MPC", set_mpc b c)
  | CAPTURE, Some tgt =>
      let '(u_smc, c1) := smc_compute_control (smc b) st tgt in
      let '(u, c2) := adaptive_compute_control (adaptive b) st tgt u_smc in
      let b1 := set_adaptive (set_smc b c1) c2 in
      let b2 :=
        if Rltb (norm (vsub (st_pos st) tgt)) (CAPTURE_TOLERANCE_MM / 1000)
        then set_grabbing b1 (snd (deploy_net (grabbing b1) dt))
        else b1 in
      Returned (u, mode "SMC+Adaptive", b2)
  | RETRACTING, _ =>
      match target_debris b with
      | None => AttributeError
      | Some d =>
          let m := match d_mass_kg d with Some m => m | None => 100 end in
          let g1 := snd (confirm_capture (grabbing b) m) in
          let g2 := snd (retract_net g1 dt) in
          Returned (zeros3, mode "retract", set_grabbing b g2)
      end
  | REENTRY, _ =>
      let u := vdiv (vscale (-0.5) (st_pos st)) (norm (st_pos st) + 1e-6) in
      Returned (u, mode "reentry", b)
  | _, _ => Returned (zeros3, telemetry, b)
  end.

(** Lines 121-123 of [compute_control]: power and fuel for the command. *)
Definition consume (b : AIBrain) (u : Vec3) (dt : R) : AIBrain :=
  let b := set_power b (snd (request_power (power b) (norm u * 0.5) dt)) in
  set_propulsion b (snd (thrust_from_acceleration (propulsion b) u)).

(** [compute_control]: the returned pair and the brain after the call. *)
Definition compute_control (b : AIBrain) (st : StateVec) (dt : R)
  : Outcome (Vec3 * Telemetry * AIBrain) :=
  let b := set_state b st in
  let telemetry := mkTelemetry (phase_value (phase b)) None None in
  if negb (can_support (power b) 5)
  then Returned (zeros3,
                 mkTelemetry (t_phase telemetry) (t_control_mode telemetry)
                   (Some "low_power"),
                 b)
  else
    let b := identify_target b st in
    let target := option_map d_pos (target_debris b) in
    let b := set_phase b (decide_phase b st target) in
    match control_by_phase b st dt target telemetry with
    | AttributeError => AttributeError
    | Returned (u, telemetry, b) => Returned (u, telemetry, consume b u dt)
    end.

End Brain.

(** ** Vocabulary of the properties *)

(** The Euclidean distance from [pos] to a catalog entry, as the loop of
    [identify_nearest_debris] computes it. *)
Definition distance_to (pos : Vec3) (d : Debris) : R := norm (vsub (d_pos d) pos).

(** Entry [i] of the catalog is [d], no entry is nearer to [pos] than [d],
    and every entry before it is strictly farther. *)
Definition is_nearest (pos : Vec3) (catalog : list Debris) (i : nat) (d : Debris)
  : Prop :=
  nth_error catalog i = Some d /\
  (forall j d', nth_error catalog j = Some d' ->
                distance_to pos d <= distance_to pos d') /\
  (forall j d', (j < i)%nat -> nth_error catalog j = Some d' ->
                distance_to pos d < distance_to pos d').

(** The invariant of the loop of [identify_nearest_debris] once the
    entries [seen] have been visited. *)
Definition loop_inv (pos : Vec3) (seen : list Debris)
    (best : option Debris) (best_dist : ExtR) : Prop :=
  match best with
  | None => seen = [] /\ best_dist = Inf
  | Some d => best_dist = Fin (distance_to pos d) /\ exists i, is_nearest pos seen i d
  end.

(** The catalog of main.py. *)
Definition debris_800 : Debris :=
  mkDebris (mkVec3 800 200 100) (mkVec3 0.1 (-0.05) 0) (Some 150).
Definition debris_300 : Debris :=
  mkDebris (mkVec3 300 50 20) (mkVec3 (-0.02) 0.01 0) (Some 80).
Definition debris_5000 : Debris :=
  mkDebris (mkVec3 5000 500 300) (mkVec3 0 0 0) (Some 200).
Definition main_catalog : list Debris := [debris_800; debris_300; debris_5000].

(** The state at rest at the origin: [np.array([0.0, ..., 0.0])]. *)
Definition origin : StateVec := mkState zeros3 zeros3.


(** ** Brains to run the code on *)

(** A grabbing system whose net came out, took a debris of 80 kg and has
    been retracting for 5 s. *)
Definition net_retracted : GrabbingSystem :=
  mkGrabbing true false true true 3 5 80 false.

(** A battery at half a percent of charge. *)
Definition flat_battery : PowerSystem :=
  mkPower BATTERY_CAPACITY_KWH (5 / 1000) BATTERY_EFFICIENCY MAX_DISCHARGE_RATE_KW.

(** A battery at a hundredth of a percent of charge: 0.005 kWh left. *)
Definition nearly_flat_battery : PowerSystem :=
  mkPower BATTERY_CAPACITY_KWH (1 / 10000) BATTERY_EFFICIENCY MAX_DISCHARGE_RATE_KW.

(** A brain with idle controllers and the 4000 kg stage, the rest given. *)
Definition brain_with (ph : MissionPhase) (pw : PowerSystem) (g : GrabbingSystem)
    (tgt : option Debris) (catalog : list Debris) : @AIBrain idle_controls :=
  @mkBrain idle_controls ph tt tt tt tt pw g (PropulsionSystem_init 4000)
    origin tgt catalog.

(** A new brain given the catalog of main.py, no target set: unlike
    main.py, which picks the target itself before its first tick. *)
Definition fresh_brain : @AIBrain idle_controls :=
  brain_with PAYLOAD_DEPLOYED PowerSystem_init GrabbingSystem_init None main_catalog.

(** A brain still in [CAPTURE], far from its target, whose grabbing system
    reports a confirmed capture and 5 s of retraction. *)
Definition capture_brain : @AIBrain idle_controls :=
  brain_with CAPTURE PowerSystem_init net_retracted (Some debris_300) main_catalog.

(** A brain in [REENTRY] with its capture confirmed and retracted. *)
Definition reentry_brain : @AIBrain idle_controls :=
  brain_with REENTRY PowerSystem_init net_retracted (Some debris_300) main_catalog.

(** A brain in [RETRACTING] whose battery is flat. *)
Definition powerless_brain : @AIBrain idle_controls :=
  brain_with RETRACTING flat_battery net_retracted (Some debris_300) main_catalog.

(** One metre from the origin on the first axis, at rest. *)
Definition one_metre_out : StateVec := mkState (mkVec3 1 0 0) zeros3.

(** The deorbit command of line 118 at that state. *)
Definition reentry_command : Vec3 :=
  vdiv (vscale (-0.5) (st_pos one_metre_out)) (norm (st_pos one_metre_out) + 1e-6).

(** The brain as main.py sets it up before its loop: the target chosen
    by hand from the catalog, the phase still [PAYLOAD_DEPLOYED]. *)
Definition main_brain : @AIBrain idle_controls :=
  brain_with PAYLOAD_DEPLOYED PowerSystem_init GrabbingSystem_init
    (Some debris_300) main_catalog.

(** A brain that reached [RETRACTING] with its net still stowed. *)
Definition stowed_brain : @AIBrain idle_controls :=
  brain_with RETRACTING PowerSystem_init GrabbingSystem_init
    (Some debris_300) main_catalog.

(** Two ticks of a tenth of a second, the stage at the origin and then a
    metre away. *)
Definition two_ticks : list (StateVec * R) := [(origin, 1 / 10); (one_metre_out, 1 / 10)].

(** ** Sequences of calls *)

(** [deploy_net(dt)] called [n] times in a row. *)
Fixpoint deploy_net_times (n : nat) (g : GrabbingSystem) (dt : R) : GrabbingSystem :=
  match n with
  | O => g
  | S k => snd (deploy_net (deploy_net_times k g dt) dt)
  end.

(** [compute_control] called once for each (state, dt) of a list, the brain
    carried from one call to the next. *)
Fixpoint run_ticks `{Controls} (b : AIBrain) (inputs : list (StateVec * R))
  : Outcome AIBrain :=
  match inputs with
  | [] => Returned b
  | (st, dt) :: rest =>
      match compute_control b st dt with
      | Returned (_, _, b') => run_ticks b' rest
      | AttributeError => AttributeError
      end
  end.

(** The flags and timers of the net agree with each other: the deployment
    thruster fires exactly while the net is deploying; a net that is out is
    no longer deploying; a capture is confirmed only on a net that is out;
    retraction has only begun, and its timer only moved, on a confirmed
    capture; the deployment timer has only moved once deployment began. *)
Definition grabbing_consistent (g : GrabbingSystem) : Prop :=
  deployment_thruster_active g = net_deploying g /\
  (net_deployed g = true -> net_deploying g = false) /\
  (capture_confirmed g = true -> net_deployed g = true) /\
  (retracting g = true -> capture_confirmed g = true) /\
  (capture_confirmed g = false -> retract_timer g = 0 /\ captured_mass_kg g = 0) /\
  (net_deployed g = false -> net_deploying g = false -> deploy_timer g = 0).

(** The mass the [RETRACTING] branch reads: [d.get("mass_kg", 100)]. *)
Definition mass_or_default (d : Debris) : R :=
  match d_mass_kg d with
  | Some m => m
  | None => 100
  end.

(** The fields of a power system, a propulsion system and a tank that the
    arithmetic of a tick relies on: capacity positive, discharge limit not
    negative, charge in [[0, 1]], thrust limits as configured, fuel not
    negative. *)
Definition resources_sound `{Controls} (b : AIBrain) : Prop :=
  0 < capacity_kwh (power b) /\
  0 <= max_discharge_kw (power b) /\
  0 <= soc (power b) <= 1 /\
  propulsion_configured (propulsion b) /\
  0 <= fuel_kg (propulsion b).

(** The control mode that goes with each phase in [compute_control]. *)
Definition mode_of_phase (ph : MissionPhase) : option string :=
  match ph with
  | COARSE_APPROACH => Some "LQR"
  | FINE_APPROACH => Some "MPC"
  | CAPTURE => Some "SMC+Adaptive"
  | RETRACTING => Some "retract"
  | REENTRY => Some "reentry"
  | _ => None
  end.


(** The override condition of rule 5 of [decide_phase]. *)
Definition override_holds (g : GrabbingSystem) : Prop :=
  5 <= retract_timer g /\ capture_confirmed g = true.

(** ** The subsystem arithmetic in binary64 *)

(** [request_power] and [thrust_from_acceleration] once more, on binary64
    numbers: every operation is the IEEE 754 one, rounded to nearest, as
    Python floats and numpy float64 arrays compute it.  Integers of the
    source (4000, 450, 50, 300, 500) enter as the floats they convert to.
    [norm] adds the three squares from left to right; on a vector with
    two zero components every order of summation gives the same result. *)
Module Binary64.
Import PrimFloat.
Local Open Scope float_scope.
#[local] Set Warnings "-inexact-float".

Record Vec3 : Type := mkVec3 { cx : float; cy : float; cz : float }.

Definition vscale (k : float) (v : Vec3) : Vec3 :=
  mkVec3 (k * cx v) (k * cy v) (k * cz v).

Definition norm (v : Vec3) : float :=
  sqrt (cx v * cx v + cy v * cy v + cz v * cz v).

(** The built-ins [min(a, b)] and [max(a, b)] of Python: the first
    argument unless the second is strictly smaller (larger). *)
Definition py_min (a b : float) : float := if b <? a then b else a.
Definition py_max (a b : float) : float := if a <? b then b else a.

Record PowerSystem : Type := mkPower {
  capacity_kwh : float;
  soc : float;
  efficiency : float;
  max_discharge_kw : float
}.

Definition PowerSystem_init : PowerSystem := mkPower 50 1 0.95 10.

Definition request_power (p : PowerSystem) (kw dt : float) : float * PowerSystem :=
  let available := py_min kw (max_discharge_kw p) in
  let energy_kwh := available * dt / 3600 in
  let '(available, energy_kwh) :=
    if soc p * capacity_kwh p <? energy_kwh
    then (soc p * capacity_kwh p * 3600 / dt, soc p * capacity_kwh p)
    else (available, energy_kwh) in
  let soc1 := soc p - energy_kwh / capacity_kwh p in
  let soc2 := py_max 0 soc1 in
  (available * efficiency p,
   mkPower (capacity_kwh p) soc2 (efficiency p) (max_discharge_kw p)).

Record PropulsionSystem : Type := mkPropulsion {
  main_thrust : float;
  vernier_thrust : float;
  isp : float;
  mass_kg : float;
  fuel_kg : float
}.

Definition PropulsionSystem_init (dry_mass_kg : float) : PropulsionSystem :=
  mkPropulsion 450 50 300 dry_mass_kg 500.

(** The cap [np.sqrt(3) * self.main_thrust]. *)
Definition f_max (p : PropulsionSystem) : float := sqrt 3 * main_thrust p.

Definition thrust_from_acceleration (p : PropulsionSystem) (accel_mps2 : Vec3)
  : (Vec3 * float) * PropulsionSystem :=
  let f := vscale (mass_kg p) accel_mps2 in
  let mag := norm f in
  let f := if f_max p <? mag then vscale (f_max p / mag) f else f in
  let f := if mag <? vernier_thrust p
           then vscale (vernier_thrust p / (mag + 1e-8)) f else f in
  let dt_flow := 0.1 in
  let mdot := norm f / (isp p * 9.81) in
  let fuel_used := mdot * dt_flow in
  ((f, fuel_used),
   mkPropulsion (main_thrust p) (vernier_thrust p) (isp p) (mass_kg p)
     (fuel_kg p - py_min fuel_used (fuel_kg p))).

(** The stage of 4000 kg asked for 0.263 m/s² along the first axis. *)
Definition stage : PropulsionSystem := PropulsionSystem_init 4000.
Definition accel_0263 : Vec3 := mkVec3 0.263 0 0.

(** A battery at 1.12 % of charge, and a request of 10 kW over 18000 s. *)
Definition low_battery : PowerSystem := mkPower 50 0.0112 0.95 10.
Definition ten_kw : float := 10.
Definition five_hours : float := 18000.

End Binary64.

(** The real number a binary64 number stands for; the infinities and NaN,
    which stand for none, are sent to 0. *)
Definition float_value (f : PrimFloat.float) : R :=
  match FloatOps.Prim2SF f with
  | SpecFloat.S754_finite s m e =>
      IZR (if s then Z.neg m else Z.pos m) * powerRZ 2 e
  | _ => 0
  end.

(** A binary64 vector read as a vector of reals. *)
Definition vec_value (v : Binary64.Vec3) : Vec3 :=
  mkVec3 (float_value (Binary64.cx v)) (float_value (Binary64.cy v))
    (float_value (Binary64.cz v)).

(** * Properties *)

(** ** Boolean comparisons *)

Lemma Rltb_true a b : Rltb a b = true <-> a < b.
Proof. unfold Rltb; destruct (Rlt_dec a b); split; intros; congruence || lra. Qed.

Lemma Rltb_false a b : Rltb a b = false <-> b <= a.
Proof. unfold Rltb; destruct (Rlt_dec a b); split; intros; congruence || lra. Qed.

Lemma Rleb_true a b : Rleb a b = true <-> a <= b.
Proof. unfold Rleb; destruct (Rle_dec a b); split; intros; congruence || lra. Qed.

Lemma Rleb_false a b : Rleb a b = false <-> b < a.
Proof. unfold Rleb; destruct (Rle_dec a b); split; intros; congruence || lra. Qed.

Lemma Rgtb_true a b : Rgtb a b = true <-> b < a.
Proof. apply Rltb_true. Qed.

Lemma Rgtb_false a b : Rgtb a b = false <-> a <= b.
Proof. apply Rltb_false. Qed.

Lemma Rgeb_true a b : Rgeb a b = true <-> b <= a.
Proof. apply Rleb_true. Qed.

Lemma Rgeb_false a b : Rgeb a b = false <-> a < b.
Proof. apply Rleb_false. Qed.

(** Deciding a comparison between two given numbers. *)
Ltac cmp_true := first
  [ apply Rltb_true | apply Rleb_true | apply Rgtb_true | apply Rgeb_true ]; lra.

(** ** PowerSystem *)

Section PowerProperties.

Variable p : PowerSystem.
Variables kw dt : R.
Hypothesis Hcap : 0 < capacity_kwh p.
Hypothesis Hmax : 0 <= max_discharge_kw p.
Hypothesis Hkw : 0 <= kw.
Hypothesis Hdt : 0 < dt.

Lemma requested_energy_nonneg : 0 <= requested_energy p kw dt.
Proof.
  unfold requested_energy.
  assert (0 <= Rmin kw (max_discharge_kw p)) by (apply Rmin_glb; lra).
  apply Rmult_le_pos; [apply Rmult_le_pos|]; lra.
Qed.

Lemma request_power_drained :
  soc p * capacity_kwh p < requested_energy p kw dt ->
  soc (snd (request_power p kw dt)) = Rmax 0 0.
Proof.
  intros Hex. unfold request_power. fold (requested_energy p kw dt).
  assert (Hg : Rgtb (requested_energy p kw dt) (soc p * capacity_kwh p) = true)
    by (apply Rgtb_true; exact Hex).
  rewrite Hg. cbn. f_equal. field. lra.
Qed.

Lemma request_power_charged :
  requested_energy p kw dt <= soc p * capacity_kwh p ->
  soc (snd (request_power p kw dt)) =
  soc p - requested_energy p kw dt / capacity_kwh p.
Proof.
  intros Hle. unfold request_power. fold (requested_energy p kw dt).
  assert (Hg : Rgtb (requested_energy p kw dt) (soc p * capacity_kwh p) = false)
    by (apply Rgtb_false; exact Hle).
  rewrite Hg. cbn. apply Rmax_right.
  assert (requested_energy p kw dt / capacity_kwh p <= soc p); [|lra].
  apply (Rmult_le_reg_r (capacity_kwh p)); [lra|].
  unfold Rdiv. rewrite Rmult_assoc, Rinv_l by lra. lra.
Qed.

End PowerProperties.

(** C5, as the code has it.  A call [request_power(kw, dt)] with
    [kw >= 0] and [dt > 0], on a battery whose charge is in [[0, 1]]
    (capacity positive, discharge limit not negative, as configured), does
    not increase [soc] and leaves it in [[0, 1]].  The energy set against
    the stored energy [soc * capacity_kwh] is the rate-limited one,
    [min(kw, max_discharge_kw) * dt / 3600]: when that exceeds the stored
    energy the battery is drained, [soc] ending at most at [1e-15]. *)
Theorem request_power_soc_limited (p : PowerSystem) (kw dt : R) :
  0 < capacity_kwh p -> 0 <= max_discharge_kw p ->
  0 <= soc p <= 1 -> 0 <= kw -> 0 < dt ->
  soc (snd (request_power p kw dt)) <= soc p /\
  0 <= soc (snd (request_power p kw dt)) <= 1 /\
  (soc p * capacity_kwh p < Rmin kw (max_discharge_kw p) * dt / 3600 ->
   soc (snd (request_power p kw dt)) <= 1e-15).
Proof.
  intros Hcap Hmax Hsoc Hkw Hdt.
  pose proof (requested_energy_nonneg p kw dt Hmax Hkw Hdt) as Hnn.
  assert (Hz : Rmax 0 0 = 0) by (apply Rmax_left; lra).
  fold (requested_energy p kw dt).
  destruct (Rlt_dec (soc p * capacity_kwh p) (requested_energy p kw dt)) as [Hex|Hle].
  - rewrite (request_power_drained p kw dt Hcap Hex), Hz. lra.
  - apply Rnot_lt_le in Hle.
    rewrite (request_power_charged p kw dt Hcap Hle).
    assert (0 <= requested_energy p kw dt / capacity_kwh p)
      by (apply Rmult_le_pos; [lra | left; apply Rinv_0_lt_compat; lra]).
    assert (requested_energy p kw dt / capacity_kwh p <= soc p).
    { apply (Rmult_le_reg_r (capacity_kwh p)); [lra|].
      unfold Rdiv. rewrite Rmult_assoc, Rinv_l by lra. lra. }
    repeat split; try lra.
Qed.

(** The nearly flat battery, asked for 10 kW over an hour: 10 kWh against
    the 0.005 kWh that are left. *)
Lemma request_power_soc_limited_witness :
  soc (snd (request_power nearly_flat_battery 10 3600)) <= soc nearly_flat_battery /\
  0 <= soc (snd (request_power nearly_flat_battery 10 3600)) <= 1 /\
  soc (snd (request_power nearly_flat_battery 10 3600)) <= 1e-15.
Proof.
  assert (Hcap : 0 < capacity_kwh nearly_flat_battery)
    by (cbn; unfold BATTERY_CAPACITY_KWH; lra).
  assert (Hmax : 0 <= max_discharge_kw nearly_flat_battery)
    by (cbn; unfold MAX_DISCHARGE_RATE_KW; lra).
  assert (Hsoc : 0 <= soc nearly_flat_battery <= 1) by (cbn; lra).
  assert (Hkw : 0 <= 10) by lra.
  assert (Hdt : 0 < 3600) by lra.
  destruct (request_power_soc_limited nearly_flat_battery 10 3600
              Hcap Hmax Hsoc Hkw Hdt) as (Hle & Hrange & Hdrain).
  split; [exact Hle|]. split; [exact Hrange|].
  apply Hdrain. cbn. unfold BATTERY_CAPACITY_KWH, MAX_DISCHARGE_RATE_KW.
  rewrite Rmin_left by lra. lra.
Defined.

(** C5, as the specification has it, fails.  The battery as constructed,
    asked for 20 kW over four hours, is asked for 80 kWh and holds 50; the
    request is limited to 10 kW, 40 kWh are drawn, and [soc] ends at 0.2,
    not 0. *)
Lemma request_power_raw_energy_not_drained :
  0 <= 20 /\ 0 < 14400 /\
  soc PowerSystem_init * capacity_kwh PowerSystem_init < 20 * 14400 / 3600 /\
  soc (snd (request_power PowerSystem_init 20 14400)) = 1 / 5 /\
  soc (snd (request_power PowerSystem_init 20 14400)) <> 0.
Proof.
  assert (Hcap : 0 < capacity_kwh PowerSystem_init)
    by (cbn; unfold BATTERY_CAPACITY_KWH; lra).
  assert (Hreq : requested_energy PowerSystem_init 20 14400 = 40).
  { unfold requested_energy. cbn. unfold MAX_DISCHARGE_RATE_KW.
    rewrite Rmin_right by lra. lra. }
  assert (Hsoc : soc (snd (request_power PowerSystem_init 20 14400)) = 1 / 5).
  { rewrite (request_power_charged PowerSystem_init 20 14400 Hcap).
    - rewrite Hreq. cbn. unfold BATTERY_CAPACITY_KWH. lra.
    - rewrite Hreq. cbn. unfold BATTERY_CAPACITY_KWH. lra. }
  split; [lra|]. split; [lra|]. split; [cbn; unfold BATTERY_CAPACITY_KWH; lra|].
  split; [exact Hsoc | rewrite Hsoc; lra].
Qed.

(** ** GrabbingSystem *)

(** C7. [confirm_capture(m)] returns true exactly when the net is deployed
    and [m <= 500]; when it returns false the grabbing system is as it was,
    every field of it. *)
Theorem confirm_capture_spec (g : GrabbingSystem) (m : R) :
  (fst (confirm_capture g m) = true <-> net_deployed g = true /\ m <= 500) /\
  (fst (confirm_capture g m) = false -> snd (confirm_capture g m) = g).
Proof.
  unfold confirm_capture, MAX_DEBRIS_MASS_KG.
  destruct (Rleb m 500) eqn:Hm; destruct (net_deployed g) eqn:Hn; cbn.
  - apply Rleb_true in Hm. repeat split; auto; discriminate.
  - apply Rleb_true in Hm. split; [split; [discriminate | intros [? _]; discriminate] | auto].
  - apply Rleb_false in Hm. split; [split; [discriminate | intros [_ ?]; lra] | auto].
  - apply Rleb_false in Hm. split; [split; [discriminate | intros [? _]; discriminate] | auto].
Qed.

(** A successful confirmation records the mass and sets the flag. *)
Lemma confirm_capture_true (g : GrabbingSystem) (m : R) :
  fst (confirm_capture g m) = true ->
  capture_confirmed (snd (confirm_capture g m)) = true /\
  captured_mass_kg (snd (confirm_capture g m)) = m.
Proof.
  unfold confirm_capture.
  destruct (Rleb m MAX_DEBRIS_MASS_KG && net_deployed g); cbn; [auto | discriminate].
Qed.

(** One call of [deploy_net] on a net that is not out yet. *)
Lemma deploy_net_step (g : GrabbingSystem) (dt : R) :
  net_deployed g = false ->
  net_deployed (snd (deploy_net g dt)) = Rgeb (deploy_timer g + dt) 3 /\
  deploy_timer (snd (deploy_net g dt)) = deploy_timer g + dt.
Proof.
  intros Hn. unfold deploy_net, NET_DEPLOYMENT_TIME_S. rewrite Hn.
  destruct (net_deploying g); cbn;
    destruct (Rgeb (deploy_timer g + dt) 3); cbn; auto.
Qed.

(** Called with [dt = 1.0] from the start, [deploy_net] has the net out on
    the third call and not before. *)
Example deploy_net_third_call :
  let g1 := snd (deploy_net GrabbingSystem_init 1) in
  let g2 := snd (deploy_net g1 1) in
  let g3 := snd (deploy_net g2 1) in
  net_deployed g1 = false /\ net_deployed g2 = false /\ net_deployed g3 = true.
Proof.
  intros g1 g2 g3.
  destruct (deploy_net_step GrabbingSystem_init 1 eq_refl) as [H1 T1].
  fold g1 in H1, T1. cbn [deploy_timer GrabbingSystem_init] in H1, T1.
  assert (N1 : net_deployed g1 = false) by (rewrite H1; apply Rgeb_false; lra).
  destruct (deploy_net_step g1 1 N1) as [H2 T2]. fold g2 in H2, T2.
  rewrite T1 in H2, T2.
  assert (N2 : net_deployed g2 = false) by (rewrite H2; apply Rgeb_false; lra).
  destruct (deploy_net_step g2 1 N2) as [H3 T3]. fold g3 in H3, T3.
  rewrite T2 in H3.
  repeat split; [exact N1 | exact N2 | rewrite H3; apply Rgeb_true; lra].
Qed.

(** ** Arrays *)

Lemma sum_squares_nonneg (v : Vec3) : 0 <= cx v * cx v + cy v * cy v + cz v * cz v.
Proof. nra. Qed.

Lemma norm_nonneg (v : Vec3) : 0 <= norm v.
Proof. apply sqrt_pos. Qed.

Lemma norm_sqr (v : Vec3) :
  norm v * norm v = cx v * cx v + cy v * cy v + cz v * cz v.
Proof. apply sqrt_sqrt, sum_squares_nonneg. Qed.

Lemma norm_zeros3 : norm zeros3 = 0.
Proof.
  unfold norm, zeros3; cbn.
  replace (0 * 0 + 0 * 0 + 0 * 0) with 0 by ring. apply sqrt_0.
Qed.

Lemma norm_vscale (k : R) (v : Vec3) : norm (vscale k v) = Rabs k * norm v.
Proof.
  unfold norm, vscale; cbn.
  replace (k * cx v * (k * cx v) + k * cy v * (k * cy v) + k * cz v * (k * cz v))
    with (Rsqr k * (cx v * cx v + cy v * cy v + cz v * cz v))
    by (unfold Rsqr; ring).
  rewrite sqrt_mult by (try apply Rle_0_sqr; apply sum_squares_nonneg).
  now rewrite sqrt_Rsqr_abs.
Qed.

Lemma vscale_zeros3 (k : R) : vscale k zeros3 = zeros3.
Proof. unfold vscale, zeros3; cbn. f_equal; ring. Qed.

Lemma vdiv_vscale (v : Vec3) (k : R) : vdiv v k = vscale (/ k) v.
Proof. unfold vdiv, vscale, Rdiv. f_equal; ring. Qed.

Lemma norm_zero_inv (v : Vec3) : norm v = 0 -> v = zeros3.
Proof.
  unfold norm. intros Hn.
  apply sqrt_eq_0 in Hn; [|apply sum_squares_nonneg].
  destruct v as [x y z]; cbn in *. unfold zeros3.
  assert (x = 0) by nra. assert (y = 0) by nra. assert (z = 0) by nra.
  congruence.
Qed.

Lemma norm_pos (v : Vec3) : v <> zeros3 -> 0 < norm v.
Proof.
  intros Hv. destruct (norm_nonneg v) as [Hlt|Heq]; [exact Hlt|].
  exfalso. apply Hv, norm_zero_inv. now symmetry.
Qed.

Lemma sqrt3_ge_1 : 1 <= sqrt 3.
Proof. rewrite <- sqrt_1 at 1. apply sqrt_le_1; lra. Qed.

(** ** PropulsionSystem *)

Section PropulsionProperties.

Variable p : PropulsionSystem.
Variable accel : Vec3.
Hypothesis Hcfg : propulsion_configured p.

Let f0 := vscale (mass_kg p) accel.
Let f_max := sqrt 3 * 450.

(** The force the function returns, as a function of the first force. *)
Lemma thrust_force_cases :
  fst (fst (thrust_from_acceleration p accel)) =
  if Rgtb (norm f0) f_max
  then vscale (f_max / norm f0) f0
  else if Rltb (norm f0) 50
       then vscale (50 / (norm f0 + 1e-8)) f0
       else f0.
Proof.
  destruct Hcfg as (Hm & Hv & _).
  unfold thrust_from_acceleration. cbn.
  rewrite Hm, Hv. unfold MAIN_RCS_THRUST_N, VERNIER_RCS_THRUST_N.
  fold f0. fold f_max.
  destruct (Rgtb (norm f0) f_max) eqn:Hg; [|reflexivity].
  apply Rgtb_true in Hg.
  assert (Hlt : Rltb (norm f0) 50 = false).
  { apply Rltb_false. pose proof sqrt3_ge_1. subst f_max. nra. }
  now rewrite Hlt.
Qed.

Lemma thrust_force_bounded :
  norm (fst (fst (thrust_from_acceleration p accel))) <= f_max.
Proof.
  rewrite thrust_force_cases.
  pose proof (norm_nonneg f0) as Hnn.
  assert (Hfm : 450 <= f_max) by (pose proof sqrt3_ge_1; subst f_max; nra).
  destruct (Rgtb (norm f0) f_max) eqn:Hg.
  - apply Rgtb_true in Hg.
    rewrite norm_vscale, Rabs_right.
    + right. field. lra.
    + apply Rle_ge, Rmult_le_pos; [lra | left; apply Rinv_0_lt_compat; lra].
  - apply Rgtb_false in Hg.
    destruct (Rltb (norm f0) 50) eqn:Hl; [|exact Hg].
    apply Rltb_true in Hl.
    assert (Hpos : 0 < norm f0 + 1e-8) by lra.
    rewrite norm_vscale, Rabs_right
      by (apply Rle_ge, Rmult_le_pos; [lra | left; apply Rinv_0_lt_compat; lra]).
    apply Rle_trans with 50; [|lra].
    apply (Rmult_le_reg_r (norm f0 + 1e-8)); [exact Hpos|].
    replace (50 / (norm f0 + 1e-8) * norm f0 * (norm f0 + 1e-8))
      with (50 * norm f0) by (field; lra).
    nra.
Qed.

Lemma fuel_used_nonneg : 0 <= snd (fst (thrust_from_acceleration p accel)).
Proof.
  destruct Hcfg as (_ & _ & Hi).
  unfold thrust_from_acceleration. cbn. rewrite Hi. unfold RCS_ISP.
  apply Rmult_le_pos; [|lra].
  apply Rmult_le_pos; [apply norm_nonneg|].
  left; apply Rinv_0_lt_compat; lra.
Qed.

Lemma fuel_after_thrust :
  fuel_kg (snd (thrust_from_acceleration p accel)) =
  fuel_kg p - Rmin (snd (fst (thrust_from_acceleration p accel))) (fuel_kg p).
Proof. reflexivity. Qed.

End PropulsionProperties.

(** A propulsion system as [__init__] builds it is configured. *)
Lemma PropulsionSystem_init_configured (m : R) :
  propulsion_configured (PropulsionSystem_init m).
Proof. repeat split. Qed.

(** In exact arithmetic the clamp holds: over the real numbers the force
    returned by [thrust_from_acceleration] has magnitude at most
    [sqrt 3 * 450] N, whatever acceleration is requested.  The binary64
    computation can end one unit in the last place above it, see
    [thrust_exceeds_cap_binary64]. *)
Lemma thrust_capped_in_exact_arithmetic (p : PropulsionSystem) (accel : Vec3) :
  propulsion_configured p ->
  norm (fst (fst (thrust_from_acceleration p accel))) <= sqrt 3 * 450.
Proof. intros Hcfg. now apply thrust_force_bounded. Qed.

(** C6. [thrust_from_acceleration] takes [min(fuel_used, fuel_kg)] off
    [fuel_kg]: with [fuel_kg >= 0] before the call, [fuel_kg] does not
    increase and is still [>= 0] after it. *)
Theorem thrust_fuel_floor (p : PropulsionSystem) (accel : Vec3) :
  propulsion_configured p -> 0 <= fuel_kg p ->
  fuel_kg (snd (thrust_from_acceleration p accel)) =
    fuel_kg p - Rmin (snd (fst (thrust_from_acceleration p accel))) (fuel_kg p) /\
  fuel_kg (snd (thrust_from_acceleration p accel)) <= fuel_kg p /\
  0 <= fuel_kg (snd (thrust_from_acceleration p accel)).
Proof.
  intros Hcfg Hfuel.
  pose proof (fuel_used_nonneg p accel Hcfg) as Hused.
  rewrite fuel_after_thrust.
  set (used := snd (fst (thrust_from_acceleration p accel))) in *.
  split; [reflexivity|].
  pose proof (Rmin_r used (fuel_kg p)).
  assert (0 <= Rmin used (fuel_kg p)) by (apply Rmin_glb; lra).
  lra.
Qed.

Lemma thrust_fuel_floor_witness :
  let p := PropulsionSystem_init 4000 in
  let a := mkVec3 1 1 1 in
  fuel_kg (snd (thrust_from_acceleration p a)) =
    fuel_kg p - Rmin (snd (fst (thrust_from_acceleration p a))) (fuel_kg p) /\
  fuel_kg (snd (thrust_from_acceleration p a)) <= fuel_kg p /\
  0 <= fuel_kg (snd (thrust_from_acceleration p a)).
Proof.
  intros p a. apply (thrust_fuel_floor p a).
  - apply PropulsionSystem_init_configured.
  - cbn; lra.
Defined.

(** The force for a zero request is the zero force. *)
Lemma thrust_force_of_zero (p : PropulsionSystem) :
  propulsion_configured p ->
  fst (fst (thrust_from_acceleration p zeros3)) = zeros3.
Proof.
  intros Hcfg.
  rewrite (thrust_force_cases p zeros3 Hcfg).
  rewrite !vscale_zeros3, norm_zeros3.
  assert (Hg : Rgtb 0 (sqrt 3 * 450) = false)
    by (apply Rgtb_false; pose proof sqrt3_ge_1; nra).
  assert (Hl : Rltb 0 50 = true) by cmp_true.
  now rewrite Hg, Hl.
Qed.

(** C3, as the code has it.  For a requested acceleration of zero,
    [thrust_from_acceleration] returns the zero force, of magnitude 0, and
    no fuel used: the vernier step multiplies the force by
    [50 / (mag + 1e-8)], and the force it multiplies is zero. *)
Theorem thrust_zero_acceleration (p : PropulsionSystem) :
  propulsion_configured p ->
  fst (thrust_from_acceleration p zeros3) = (zeros3, 0) /\
  norm (fst (fst (thrust_from_acceleration p zeros3))) = 0.
Proof.
  intros Hcfg.
  pose proof (thrust_force_of_zero p Hcfg) as Hf.
  split; [|rewrite Hf; apply norm_zeros3].
  rewrite (surjective_pairing (fst (thrust_from_acceleration p zeros3))).
  f_equal; [exact Hf|].
  change (snd (fst (thrust_from_acceleration p zeros3)))
    with (norm (fst (fst (thrust_from_acceleration p zeros3)))
          / (isp p * 9.81) * (1 / 10)).
  rewrite Hf, norm_zeros3. unfold Rdiv. ring.
Qed.

Lemma thrust_zero_acceleration_witness :
  fst (thrust_from_acceleration (PropulsionSystem_init 4000) zeros3) = (zeros3, 0) /\
  norm (fst (fst (thrust_from_acceleration (PropulsionSystem_init 4000) zeros3))) = 0.
Proof.
  apply (thrust_zero_acceleration (PropulsionSystem_init 4000)).
  apply PropulsionSystem_init_configured.
Defined.

(** C3, as the specification has it, fails: the stage as constructed,
    asked for zero acceleration, returns a force of magnitude 0, not 50. *)
Lemma thrust_zero_not_vernier :
  norm (fst (fst (thrust_from_acceleration (PropulsionSystem_init 4000) zeros3))) <> 50.
Proof.
  rewrite (thrust_force_of_zero _ (PropulsionSystem_init_configured 4000)).
  rewrite norm_zeros3. lra.
Qed.

(** ** Mission phases *)

Lemma phase_eqb_eq (a b : MissionPhase) : phase_eqb a b = true <-> a = b.
Proof.
  split.
  - destruct a, b; intros E; try reflexivity; discriminate E.
  - intros ->. destruct b; reflexivity.
Qed.

Lemma phase_eqb_neq (a b : MissionPhase) : phase_eqb a b = false <-> a <> b.
Proof.
  split.
  - intros E ->. destruct b; discriminate E.
  - intros N. destruct (phase_eqb a b) eqn:E; [|reflexivity].
    apply phase_eqb_eq in E. contradiction.
Qed.

Section DecidePhase.
Context `{Controls}.

Variable b : AIBrain.
Variable st : StateVec.
Variable tgt : Vec3.

Let dist := norm (vsub (st_pos st) tgt).

(** A rule of the form "phase is [ph] and the distance is under [r]"
    that does not match. *)
Lemma rule_not_matched (ph : MissionPhase) (r : R) :
  ~ (phase b = ph /\ dist < r) ->
  phase_eqb (phase b) ph && ext_ltb (Fin dist) r = false.
Proof.
  intros Hn. apply andb_false_iff.
  destruct (phase_eqb (phase b) ph) eqn:E; [right | now left].
  apply phase_eqb_eq in E. cbn. apply Rltb_false.
  destruct (Rle_dec r dist); [assumption|]. exfalso. apply Hn. split; [assumption | lra].
Qed.

(** With a target and rules 2-4 not matching, [decide_phase] is decided
    by the override, then by the phase. *)
Lemma decide_phase_past_rule4 :
  ~ (phase b = COARSE_APPROACH /\ dist < 500) ->
  ~ (phase b = FINE_APPROACH /\ dist < 5) ->
  ~ (phase b = CAPTURE /\ dist < 1 / 100) ->
  decide_phase b st (Some tgt) =
  if Rgeb (retract_timer (grabbing b)) 5 && capture_confirmed (grabbing b)
  then REENTRY
  else if phase_eqb (phase b) REENTRY then COMPLETE else phase b.
Proof.
  intros H2 H3 H4. unfold decide_phase.
  change (3 <=? size tgt)%nat with true. cbv iota. fold dist.
  unfold LQR_COARSE_THRESHOLD, MPC_FINE_THRESHOLD, SLIDING_CAPTURE_THRESHOLD.
  now rewrite (rule_not_matched _ _ H2), (rule_not_matched _ _ H3),
    (rule_not_matched _ _ H4).
Qed.

End DecidePhase.

(** C2. [decide_phase] with a target, when none of rules 2-4 matches:
    if [retract_timer >= 5.0] and [capture_confirmed], the phase returned
    is [REENTRY], whatever the current phase is. *)
Theorem decide_phase_override `{Controls} (b : AIBrain) (st : StateVec) (tgt : Vec3) :
  ~ (phase b = COARSE_APPROACH /\ norm (vsub (st_pos st) tgt) < 500) ->
  ~ (phase b = FINE_APPROACH /\ norm (vsub (st_pos st) tgt) < 5) ->
  ~ (phase b = CAPTURE /\ norm (vsub (st_pos st) tgt) < 1 / 100) ->
  5 <= retract_timer (grabbing b) ->
  capture_confirmed (grabbing b) = true ->
  decide_phase b st (Some tgt) = REENTRY.
Proof.
  intros H2 H3 H4 Ht Hc.
  rewrite (decide_phase_past_rule4 b st tgt H2 H3 H4), Hc.
  assert (Hg : Rgeb (retract_timer (grabbing b)) 5 = true) by (apply Rgeb_true; exact Ht).
  now rewrite Hg.
Qed.

(** From [CAPTURE], 300 m from the target: rule 4 does not match and the
    override sends the brain to [REENTRY]. *)
Lemma decide_phase_override_witness :
  decide_phase capture_brain origin (Some (d_pos debris_300)) = REENTRY.
Proof.
  apply (decide_phase_override capture_brain origin (d_pos debris_300)).
  - intros [E _]; discriminate E.
  - intros [E _]; discriminate E.
  - intros [_ Hd].
    pose proof (norm_sqr (vsub (st_pos origin) (d_pos debris_300))) as Hs.
    pose proof (norm_nonneg (vsub (st_pos origin) (d_pos debris_300))) as Hn.
    set (n := norm (vsub (st_pos origin) (d_pos debris_300))) in *.
    cbn in Hs. nra.
  - cbn; lra.
  - reflexivity.
Defined.

(** ** The tick: [compute_control] *)

Section Tick.
Context `{Controls}.

Variable b : AIBrain.
Variable st : StateVec.
Variable dt : R.

(** The brain when the controller is chosen, after lines 79-95. *)
Let b1 := identify_target (set_state b st) st.
Let target := option_map d_pos (target_debris b1).
Let b2 := set_phase b1 (decide_phase b1 st target).
Let telemetry0 := mkTelemetry (phase_value (phase b)) None None.

Lemma compute_control_low :
  can_support (power b) 5 = false ->
  compute_control b st dt =
  Returned (zeros3,
            mkTelemetry (phase_value (phase b)) None (Some "low_power"),
            set_state b st).
Proof.
  intros Hc. unfold compute_control.
  change (power (set_state b st)) with (power b). now rewrite Hc.
Qed.

Lemma compute_control_powered :
  can_support (power b) 5 = true ->
  compute_control b st dt =
  match control_by_phase b2 st dt target telemetry0 with
  | AttributeError => AttributeError
  | Returned (u, t, b3) => Returned (u, t, consume b3 u dt)
  end.
Proof.
  intros Hc. unfold compute_control.
  change (power (set_state b st)) with (power b). now rewrite Hc.
Qed.

(** Without a target the phase decided is [SEEKING_DEBRIS], so the
    [RETRACTING] branch always finds its target. *)
Lemma retracting_has_target :
  phase b2 = RETRACTING -> target_debris b2 <> None.
Proof.
  subst b2 target. cbn. destruct (target_debris b1); [discriminate|].
  cbn. discriminate.
Qed.

End Tick.

Section ControlByPhase.
Context `{Controls}.

Variable b : AIBrain.
Variable st : StateVec.
Variable dt : R.
Variable target : option Vec3.
Variable telemetry : Telemetry.

(** The control computation returns whenever the [RETRACTING] branch
    has a target to read; it writes neither the phase nor the target, the
    power system or the propulsion system, and it keeps the ["phase"]
    entry of the telemetry. *)
Lemma control_by_phase_returns :
  (phase b = RETRACTING -> target_debris b <> None) ->
  exists u t b',
    control_by_phase b st dt target telemetry = Returned (u, t, b') /\
    t_phase t = t_phase telemetry /\
    phase b' = phase b /\
    target_debris b' = target_debris b /\
    debris_catalog b' = debris_catalog b /\
    power b' = power b /\
    propulsion b' = propulsion b.
Proof.
  intros Hret. unfold control_by_phase.
  destruct (phase b) eqn:Hph; destruct target as [tgt|];
    try (eexists _, _, _; split; [reflexivity | now repeat split]).
  - destruct (lqr_compute_control (lqr b) st tgt) as [u c].
    eexists _, _, _; split; [reflexivity | now repeat split].
  - destruct (mpc_compute_control (mpc b) st tgt) as [u c].
    eexists _, _, _; split; [reflexivity | now repeat split].
  - destruct (smc_compute_control (smc b) st tgt) as [u1 c1].
    destruct (adaptive_compute_control (adaptive b) st tgt u1) as [u c2].
    eexists _, _, _; split; [reflexivity|].
    destruct (Rltb _ _); now repeat split.
  - destruct (target_debris b) as [d|] eqn:Ht; [|now destruct Hret].
    eexists _, _, _; split; [reflexivity | now repeat split].
  - destruct (target_debris b) as [d|] eqn:Ht; [|now destruct Hret].
    eexists _, _, _; split; [reflexivity | now repeat split].
Qed.

(** The [REENTRY] branch. *)
Lemma control_by_phase_reentry :
  phase b = REENTRY ->
  control_by_phase b st dt target telemetry =
  Returned (vdiv (vscale (-0.5) (st_pos st)) (norm (st_pos st) + 1e-6),
            mkTelemetry (t_phase telemetry) (Some "reentry") (t_error telemetry),
            b).
Proof. intros Hph. unfold control_by_phase. rewrite Hph. now destruct target. Qed.

End ControlByPhase.

(** [consume] writes the power and propulsion systems only. *)
Lemma consume_keeps `{Controls} (b : AIBrain) (u : Vec3) (dt : R) :
  phase (consume b u dt) = phase b /\
  target_debris (consume b u dt) = target_debris b /\
  debris_catalog (consume b u dt) = debris_catalog b /\
  grabbing (consume b u dt) = grabbing b.
Proof. now repeat split. Qed.

(** A tick always returns: the [AttributeError] of the [RETRACTING] branch
    cannot happen.  The brain it leaves is in the phase decided on line 95
    (or, on low power, in the phase it was in). *)
Lemma compute_control_returns `{Controls} (b : AIBrain) (st : StateVec) (dt : R) :
  exists u t b',
    compute_control b st dt = Returned (u, t, b') /\
    t_phase t = phase_value (phase b).
Proof.
  destruct (can_support (power b) 5) eqn:Hc.
  - rewrite (compute_control_powered b st dt Hc).
    set (b1 := identify_target (set_state b st) st).
    set (target := option_map d_pos (target_debris b1)).
    set (b2 := set_phase b1 (decide_phase b1 st target)).
    destruct (control_by_phase_returns b2 st dt target
                (mkTelemetry (phase_value (phase b)) None None)
                (retracting_has_target b st))
      as (u & t & b3 & Heq & Hph & _).
    rewrite Heq. now exists u, t, (consume b3 u dt).
  - rewrite (compute_control_low b st dt Hc). now eexists _, _, _.
Qed.

(** ** Target selection *)

Section NearestLoop.

Variable pos : Vec3.

Lemma nearest_loop_closer d rest best bd :
  lt_ext (distance_to pos d) bd = true ->
  nearest_loop pos (d :: rest) best bd =
  nearest_loop pos rest (Some d) (Fin (distance_to pos d)).
Proof. intros Hlt. cbn [nearest_loop]. fold (distance_to pos d). now rewrite Hlt. Qed.

Lemma nearest_loop_farther d rest best bd :
  lt_ext (distance_to pos d) bd = false ->
  nearest_loop pos (d :: rest) best bd = nearest_loop pos rest best bd.
Proof. intros Hlt. cbn [nearest_loop]. fold (distance_to pos d). now rewrite Hlt. Qed.

(** One iteration keeps the invariant. *)
Lemma loop_inv_step seen d best bd :
  loop_inv pos seen best bd ->
  if lt_ext (distance_to pos d) bd
  then loop_inv pos (seen ++ [d]) (Some d) (Fin (distance_to pos d))
  else loop_inv pos (seen ++ [d]) best bd.
Proof.
  intros Hinv. destruct best as [d0|]; cbn in Hinv.
  - destruct Hinv as (-> & i & Hi & Hmin & Hfirst). cbn [lt_ext].
    assert (Hlen : (i < List.length seen)%nat) by (apply nth_error_Some; congruence).
    destruct (Rltb (distance_to pos d) (distance_to pos d0)) eqn:Hlt.
    + apply Rltb_true in Hlt. split; [reflexivity|].
      exists (List.length seen). split; [|split].
      * rewrite nth_error_app2, Nat.sub_diag by lia. reflexivity.
      * intros j d' Hj.
        destruct (Nat.lt_ge_cases j (List.length seen)) as [Hjl|Hjl].
        -- rewrite nth_error_app1 in Hj by exact Hjl.
           specialize (Hmin j d' Hj). lra.
        -- rewrite nth_error_app2 in Hj by exact Hjl.
           destruct (j - List.length seen)%nat as [|k]; cbn in Hj.
           ++ injection Hj as <-. lra.
           ++ destruct k; discriminate Hj.
      * intros j d' Hjl Hj. rewrite nth_error_app1 in Hj by exact Hjl.
        specialize (Hmin j d' Hj). lra.
    + apply Rltb_false in Hlt. split; [reflexivity|].
      exists i. split; [|split].
      * rewrite nth_error_app1 by exact Hlen. exact Hi.
      * intros j d' Hj.
        destruct (Nat.lt_ge_cases j (List.length seen)) as [Hjl|Hjl].
        -- rewrite nth_error_app1 in Hj by exact Hjl. exact (Hmin j d' Hj).
        -- rewrite nth_error_app2 in Hj by exact Hjl.
           destruct (j - List.length seen)%nat as [|k]; cbn in Hj.
           ++ injection Hj as <-. exact Hlt.
           ++ destruct k; discriminate Hj.
      * intros j d' Hji Hj.
        rewrite nth_error_app1 in Hj by lia. exact (Hfirst j d' Hji Hj).
  - destruct Hinv as (-> & ->). cbn [lt_ext app]. split; [reflexivity|].
    exists 0%nat. split; [reflexivity | split].
    + intros j d' Hj. destruct j as [|j]; cbn in Hj.
      * injection Hj as <-. lra.
      * destruct j; discriminate Hj.
    + intros j d' Hj. lia.
Qed.

(** The loop carries the invariant from the entries seen to the whole
    catalog. *)
Lemma nearest_loop_inv rest :
  forall seen best bd,
    loop_inv pos seen best bd ->
    exists bd', loop_inv pos (seen ++ rest) (nearest_loop pos rest best bd) bd'.
Proof.
  induction rest as [|d rest IH]; intros seen best bd Hinv.
  - rewrite app_nil_r. now exists bd.
  - pose proof (loop_inv_step seen d best bd Hinv) as Hstep.
    replace (seen ++ d :: rest) with ((seen ++ [d]) ++ rest)
      by (rewrite <- app_assoc; reflexivity).
    destruct (lt_ext (distance_to pos d) bd) eqn:Hlt.
    + rewrite (nearest_loop_closer _ _ _ _ Hlt). now apply IH.
    + rewrite (nearest_loop_farther _ _ _ _ Hlt). now apply IH.
Qed.

End NearestLoop.

(** On a catalog that is not empty, [identify_nearest_debris] returns the
    first of the entries nearest to the position. *)
Lemma identify_nearest_debris_spec (st : StateVec) (catalog : list Debris) :
  catalog <> [] ->
  exists i d,
    identify_nearest_debris st catalog = Some d /\
    is_nearest (st_pos st) catalog i d.
Proof.
  intros Hne.
  assert (Hid : identify_nearest_debris st catalog
                = nearest_loop (st_pos st) catalog None Inf)
    by (destruct catalog; [contradiction | reflexivity]).
  destruct (nearest_loop_inv (st_pos st) catalog [] None Inf) as [bd Hinv];
    [now split|].
  rewrite Hid. cbn [app] in Hinv.
  destruct (nearest_loop (st_pos st) catalog None Inf) as [d|]; cbn in Hinv.
  - destruct Hinv as (_ & i & Hi). now exists i, d.
  - now destruct Hinv.
Qed.

Lemma norm_lt (v w : Vec3) :
  cx v * cx v + cy v * cy v + cz v * cz v < cx w * cx w + cy w * cy w + cz w * cz w ->
  norm v < norm w.
Proof.
  intros Hlt. apply sqrt_lt_1_alt. split; [apply sum_squares_nonneg | exact Hlt].
Qed.

(** From the origin, the nearest entry of the catalog of main.py is the
    second one, at [300, 50, 20]. *)
Lemma nearest_in_main_catalog :
  identify_nearest_debris origin main_catalog = Some debris_300.
Proof.
  unfold identify_nearest_debris, main_catalog.
  rewrite nearest_loop_closer by reflexivity.
  rewrite nearest_loop_closer
    by (apply Rltb_true, norm_lt; cbn; lra).
  rewrite nearest_loop_farther
    by (apply Rltb_false; left; apply norm_lt; cbn; lra).
  reflexivity.
Qed.

Lemma can_support_init : can_support PowerSystem_init 5 = true.
Proof.
  unfold can_support. apply andb_true_iff. split.
  - apply Rgtb_true. cbn; lra.
  - apply Rleb_true. cbn; unfold MAX_DISCHARGE_RATE_KW; lra.
Qed.

(** With the discharge limit of config.py, the power check for 5 kW fails
    exactly when [soc <= 0.01]. *)
Lemma can_support_5_false (p : PowerSystem) :
  max_discharge_kw p = MAX_DISCHARGE_RATE_KW ->
  (can_support p 5 = false <-> soc p <= 1 / 100).
Proof.
  intros Hm. unfold can_support. rewrite Hm. unfold MAX_DISCHARGE_RATE_KW.
  assert (Hle : Rleb 5 10 = true) by cmp_true.
  rewrite Hle, andb_true_r. apply Rgtb_false.
Qed.

Section Selection.
Context `{Controls}.

Variable b : AIBrain.
Variable st : StateVec.
Variable dt : R.
Hypothesis Hnone : target_debris b = None.
Hypothesis Hcat : debris_catalog b <> [].


Lemma identify_target_phase d :
  identify_nearest_debris st (debris_catalog b) = Some d ->
  identify_target (set_state b st) st =
  set_phase (set_target_debris (set_state b st) (Some d)) COARSE_APPROACH.
Proof.
  intros Hid. unfold identify_target.
  change (target_debris (set_state b st)) with (target_debris b).
  change (debris_catalog (set_state b st)) with (debris_catalog b).
  rewrite Hnone. destruct (debris_catalog b) as [|d0 l] eqn:Hc; [contradiction|].
  now rewrite Hid.
Qed.


End Selection.



(** ** The power gate *)

(** C1. On a tick whose power check fails, [compute_control] returns the
    zero acceleration and the telemetry [{phase, control_mode: None,
    error: "low_power"}]; the brain it leaves differs from the one it
    found in [self.state] only: no controller has run, and [soc],
    [fuel_kg], the grabbing system, the target and the phase are as they
    were. *)
Theorem low_power_tick `{Controls} (b : AIBrain) (st : StateVec) (dt : R) :
  can_support (power b) 5 = false ->
  exists t b',
    compute_control b st dt = Returned (zeros3, t, b') /\
    t_error t = Some "low_power" /\
    t_control_mode t = None /\
    t_phase t = phase_value (phase b) /\
    b' = set_state b st /\
    lqr b' = lqr b /\ mpc b' = mpc b /\ smc b' = smc b /\ adaptive b' = adaptive b /\
    soc (power b') = soc (power b) /\
    fuel_kg (propulsion b') = fuel_kg (propulsion b) /\
    grabbing b' = grabbing b /\
    target_debris b' = target_debris b /\
    phase b' = phase b.
Proof.
  intros Hc. rewrite (compute_control_low b st dt Hc).
  eexists _, _. split; [reflexivity|]. now repeat split.
Qed.

Lemma can_support_flat : can_support flat_battery 5 = false.
Proof.
  apply can_support_5_false; [reflexivity|]. cbn; lra.
Qed.

(** The brain with the flat battery, in [RETRACTING] with work to do. *)
Lemma low_power_tick_witness :
  exists t b',
    compute_control powerless_brain one_metre_out (1 / 10)
      = Returned (zeros3, t, b') /\
    t_error t = Some "low_power" /\
    t_control_mode t = None /\
    t_phase t = phase_value (phase powerless_brain) /\
    b' = set_state powerless_brain one_metre_out /\
    lqr b' = lqr powerless_brain /\ mpc b' = mpc powerless_brain /\
    smc b' = smc powerless_brain /\ adaptive b' = adaptive powerless_brain /\
    soc (power b') = soc (power powerless_brain) /\
    fuel_kg (propulsion b') = fuel_kg (propulsion powerless_brain) /\
    grabbing b' = grabbing powerless_brain /\
    target_debris b' = target_debris powerless_brain /\
    phase b' = phase powerless_brain.
Proof.
  apply (low_power_tick powerless_brain one_metre_out (1 / 10)).
  exact can_support_flat.
Defined.

(** ** Telemetry *)

(** The first tick of a new brain given the catalog of main.py: the
    target at [300, 50, 20] is
    selected, the phase goes to [COARSE_APPROACH] and, the target being
    within 500 m, on to [FINE_APPROACH]; the fine controller runs. *)
Lemma first_tick :
  exists u b',
    compute_control fresh_brain origin (1 / 10) =
    Returned (u, mkTelemetry "payload_deployed" (Some "MPC") None, b') /\
    phase b' = FINE_APPROACH.
Proof.
  rewrite (compute_control_powered fresh_brain origin (1 / 10) can_support_init).
  rewrite (identify_target_phase fresh_brain origin eq_refl
             ltac:(discriminate) debris_300 nearest_in_main_catalog).
  set (b1 := set_phase _ COARSE_APPROACH).
  assert (Hd : decide_phase b1 origin (option_map d_pos (target_debris b1))
               = FINE_APPROACH).
  { unfold decide_phase. cbn [b1 target_debris set_phase set_target_debris option_map].
    change (3 <=? size (d_pos debris_300))%nat with true. cbv iota.
    cbn [phase b1 set_phase]. change (phase_eqb COARSE_APPROACH COARSE_APPROACH) with true.
    cbn [andb ext_ltb].
    assert (Hlt : Rltb (norm (vsub (st_pos origin) (d_pos debris_300)))
                    LQR_COARSE_THRESHOLD = true).
    { apply Rltb_true. unfold LQR_COARSE_THRESHOLD.
      pose proof (norm_sqr (vsub (st_pos origin) (d_pos debris_300))) as Hs.
      pose proof (norm_nonneg (vsub (st_pos origin) (d_pos debris_300))) as Hn.
      set (n := norm (vsub (st_pos origin) (d_pos debris_300))) in *.
      cbn in Hs. nra. }
    now rewrite Hlt. }
  rewrite Hd. eexists _, _. split; reflexivity.
Qed.

(** C10. The ["phase"] entry of the telemetry that [compute_control]
    returns is the phase the brain was in when the tick began.  When the
    phase changes in the tick the entry is the previous phase although the
    controller is chosen by the new one: on the first tick of a new brain
    given the catalog of main.py the telemetry reads ["payload_deployed"]
    with control mode ["MPC"], and the brain is left in [FINE_APPROACH]. *)
Theorem telemetry_phase_at_entry :
  (forall (C : Controls) (b : AIBrain) (st : StateVec) (dt : R),
      exists u t b',
        compute_control b st dt = Returned (u, t, b') /\
        t_phase t = phase_value (phase b)) /\
  (exists u t b',
      compute_control fresh_brain origin (1 / 10) = Returned (u, t, b') /\
      t_phase t = phase_value (phase fresh_brain) /\
      phase b' = FINE_APPROACH /\
      t_phase t <> phase_value (phase b') /\
      t_control_mode t = Some "MPC").
Proof.
  split.
  - intros C b st dt. apply compute_control_returns.
  - destruct first_tick as (u & b' & Heq & Hph).
    exists u, (mkTelemetry "payload_deployed" (Some "MPC") None), b'.
    rewrite Hph. repeat split; [exact Heq | discriminate].
Qed.

(** ** Re-entry *)

(** The decimal constants of the [REENTRY] branch as fractions. *)
Lemma lit_half : 0.5 = 1 / 2.
Proof. lra. Qed.

Lemma lit_neg_half : -0.5 = - (1 / 2).
Proof. lra. Qed.

(** The deorbit command: [-0.5 * pos / (norm(pos) + 1e-6)]. *)
Lemma deorbit_vector (pos : Vec3) :
  vdiv (vscale (-0.5) pos) (norm pos + 1e-6) =
  vscale (- (0.5 / (norm pos + 1e-6))) pos.
Proof.
  pose proof (norm_nonneg pos).
  unfold vdiv, vscale; cbn [cx cy cz]. rewrite lit_half, lit_neg_half.
  f_equal; field; lra.
Qed.

Lemma deorbit_norm (pos : Vec3) :
  norm (vscale (- (0.5 / (norm pos + 1e-6))) pos) =
  0.5 * norm pos / (norm pos + 1e-6).
Proof.
  pose proof (norm_nonneg pos).
  assert (0 < 0.5 / (norm pos + 1e-6))
    by (apply Rmult_lt_0_compat; [lra | apply Rinv_0_lt_compat; lra]).
  rewrite norm_vscale, Rabs_Ropp, Rabs_right by lra.
  rewrite lit_half. field; lra.
Qed.

Lemma deorbit_norm_bounds (pos : Vec3) :
  pos <> zeros3 ->
  0 < 0.5 * norm pos / (norm pos + 1e-6) < 0.5.
Proof.
  intros Hpos. pose proof (norm_pos pos Hpos) as Hn.
  assert (Hd : 0 < norm pos + 1e-6) by lra.
  split.
  - apply Rmult_lt_0_compat; [lra | apply Rinv_0_lt_compat; lra].
  - apply (Rmult_lt_reg_r (norm pos + 1e-6)); [exact Hd|].
    replace (0.5 * norm pos / (norm pos + 1e-6) * (norm pos + 1e-6))
      with (0.5 * norm pos) by (rewrite lit_half; field; lra).
    lra.
Qed.

(** A powered tick: the brain it leaves is in the phase its controller
    was chosen by, and in [REENTRY] the result is that of the [REENTRY]
    branch. *)
Lemma reentry_tick `{Controls} (b : AIBrain) (st : StateVec) (dt : R) u t b' :
  can_support (power b) 5 = true ->
  compute_control b st dt = Returned (u, t, b') ->
  phase b' = REENTRY ->
  u = vdiv (vscale (-0.5) (st_pos st)) (norm (st_pos st) + 1e-6) /\
  t = mkTelemetry (phase_value (phase b)) (Some "reentry") None.
Proof.
  intros Hc Heq Hph.
  rewrite (compute_control_powered b st dt Hc) in Heq.
  set (b1 := identify_target (set_state b st) st) in *.
  set (target := option_map d_pos (target_debris b1)) in *.
  set (b2 := set_phase b1 (decide_phase b1 st target)) in *.
  destruct (control_by_phase_returns b2 st dt target
              (mkTelemetry (phase_value (phase b)) None None)
              (retracting_has_target b st))
    as (u3 & t3 & b3 & Heq3 & _ & Hph3 & _).
  rewrite Heq3 in Heq. injection Heq as -> -> <-.
  change (phase (consume b3 u dt)) with (phase b3) in Hph.
  rewrite Hph3 in Hph.
  rewrite (control_by_phase_reentry b2 st dt target _ Hph) in Heq3.
  injection Heq3 as <- <- _. now split.
Qed.

(** The tick of the brain in [REENTRY], one metre from the origin. *)
Lemma reentry_tick_example :
  compute_control reentry_brain one_metre_out (1 / 10) =
  Returned (reentry_command,
            mkTelemetry "reentry" (Some "reentry") None,
            consume (set_state reentry_brain one_metre_out) reentry_command (1 / 10)).
Proof.
  rewrite (compute_control_powered reentry_brain one_metre_out (1 / 10) can_support_init).
  change (identify_target (set_state reentry_brain one_metre_out) one_metre_out)
    with (set_state reentry_brain one_metre_out).
  set (b1 := set_state reentry_brain one_metre_out).
  change (option_map d_pos (target_debris b1)) with (Some (d_pos debris_300)).
  assert (Hd : decide_phase b1 one_metre_out (Some (d_pos debris_300)) = REENTRY).
  { rewrite decide_phase_past_rule4; try (intros [E _]; discriminate E).
    assert (Hg : Rgeb (retract_timer (grabbing b1)) 5 = true)
      by (apply Rgeb_true; cbn; lra).
    now rewrite Hg. }
  rewrite Hd. reflexivity.
Qed.

Lemma norm_one_metre_out : norm (st_pos one_metre_out) = 1.
Proof.
  unfold norm; cbn.
  replace (1 * 1 + 0 * 0 + 0 * 0) with 1 by ring. apply sqrt_1.
Qed.

Lemma one_metre_out_nonzero : st_pos one_metre_out <> zeros3.
Proof. intros E. apply (f_equal cx) in E. cbn in E. lra. Qed.

(** C9, as the code has it.  A tick that passes the power check returns,
    and when its phase is [REENTRY] the acceleration returned is
    [-0.5 * pos / (norm(pos) + 1e-6)] and [control_mode] is ["reentry"]:
    a multiple of [pos] by a negative factor, of magnitude
    [0.5 * norm(pos) / (norm(pos) + 1e-6)], which for a position other
    than zero lies strictly between 0 and 0.5. *)
Theorem reentry_acceleration `{Controls} (b : AIBrain) (st : StateVec) (dt : R) :
  can_support (power b) 5 = true ->
  exists u t b',
    compute_control b st dt = Returned (u, t, b') /\
    (phase b' = REENTRY ->
     u = vscale (- (0.5 / (norm (st_pos st) + 1e-6))) (st_pos st) /\
     t_control_mode t = Some "reentry" /\
     norm u = 0.5 * norm (st_pos st) / (norm (st_pos st) + 1e-6) /\
     (st_pos st <> zeros3 -> 0 < norm u < 0.5)).
Proof.
  intros Hc.
  destruct (compute_control_returns b st dt) as (u & t & b' & Heq & _).
  exists u, t, b'. split; [exact Heq|]. intros Hph.
  destruct (reentry_tick b st dt u t b' Hc Heq Hph) as [-> ->].
  rewrite deorbit_vector, deorbit_norm.
  repeat split; try reflexivity; now apply deorbit_norm_bounds.
Qed.

(** The brain in [REENTRY] one metre from the origin: the tick stays in
    [REENTRY] and commands less than 0.5 m/s². *)
Lemma reentry_acceleration_witness :
  exists u t b',
    compute_control reentry_brain one_metre_out (1 / 10) = Returned (u, t, b') /\
    phase b' = REENTRY /\
    t_control_mode t = Some "reentry" /\
    0 < norm u < 0.5.
Proof.
  destruct (reentry_acceleration reentry_brain one_metre_out (1 / 10) can_support_init)
    as (u & t & b' & Heq & Himp).
  exists u, t, b'.
  assert (Hph : phase b' = REENTRY).
  { rewrite reentry_tick_example in Heq. injection Heq as <- <- <-. reflexivity. }
  destruct (Himp Hph) as (_ & Hmode & _ & Hbound).
  split; [exact Heq|]. split; [exact Hph|]. split; [exact Hmode|].
  exact (Hbound one_metre_out_nonzero).
Defined.

(** C9, as the specification has it, fails.  The brain in [REENTRY] one
    metre from the origin returns an acceleration of magnitude
    [0.5 / 1.000001], not 0.5, so not [-0.5 * pos / norm(pos)]. *)
Lemma reentry_magnitude_not_half :
  exists u t b',
    compute_control reentry_brain one_metre_out (1 / 10) = Returned (u, t, b') /\
    phase b' = REENTRY /\
    st_pos one_metre_out <> zeros3 /\
    norm u <> 0.5 /\
    u <> vscale (-0.5 / norm (st_pos one_metre_out)) (st_pos one_metre_out).
Proof.
  eexists _, _, _. split; [exact reentry_tick_example|].
  assert (Hn : norm reentry_command = 0.5 * 1 / (1 + 1e-6)).
  { unfold reentry_command. rewrite deorbit_vector, deorbit_norm.
    now rewrite norm_one_metre_out. }
  assert (Hne : norm reentry_command <> 0.5).
  { rewrite Hn. intros E.
    assert (0.5 * 1 / (1 + 1e-6) * (1 + 1e-6) = 0.5 * (1 + 1e-6)) by (rewrite E; ring).
    assert (0.5 * 1 / (1 + 1e-6) * (1 + 1e-6) = 0.5) by (rewrite lit_half; field; lra).
    lra. }
  split; [reflexivity|].
  split; [exact one_metre_out_nonzero|].
  split; [exact Hne|].
  intros E. apply Hne. rewrite E, norm_vscale, norm_one_metre_out.
  rewrite Rabs_left by lra. lra.
Qed.

(** * Further properties of the subsystems *)

(** ** PowerSystem: what a request delivers *)

Section PowerDelivery.

Variable p : PowerSystem.
Variables kw dt : R.
Hypothesis Hcap : 0 < capacity_kwh p.
Hypothesis Hmax : 0 <= max_discharge_kw p.
Hypothesis Hsoc : 0 <= soc p.
Hypothesis Hkw : 0 <= kw.
Hypothesis Hdt : 0 < dt.



Lemma soc_after_request_le :
  soc (snd (request_power p kw dt)) <= soc p /\
  0 <= soc (snd (request_power p kw dt)).
Proof.
  pose proof (requested_energy_nonneg p kw dt Hmax Hkw Hdt) as Hnn.
  destruct (Rlt_dec (soc p * capacity_kwh p) (requested_energy p kw dt)) as [Hex|Hle].
  - rewrite (request_power_drained p kw dt Hcap Hex), Rmax_left; lra.
  - apply Rnot_lt_le in Hle.
    rewrite (request_power_charged p kw dt Hcap Hle).
    assert (0 <= requested_energy p kw dt / capacity_kwh p)
      by (apply Rmult_le_pos; [lra | left; apply Rinv_0_lt_compat; lra]).
    assert (requested_energy p kw dt / capacity_kwh p <= soc p); [|lra].
    apply (Rmult_le_reg_r (capacity_kwh p)); [lra|].
    unfold Rdiv. rewrite Rmult_assoc, Rinv_l by lra. lra.
Qed.



End PowerDelivery.





(** A request for no power draws nothing. *)
Lemma request_power_nothing (p : PowerSystem) (dt : R) :
  0 < capacity_kwh p -> 0 <= max_discharge_kw p -> 0 <= soc p ->
  request_power p 0 dt = (0, p).
Proof.
  intros Hcap Hmax Hsoc. unfold request_power.
  rewrite Rmin_left by lra.
  assert (Hg : Rgtb (0 * dt / 3600) (soc p * capacity_kwh p) = false).
  { apply Rgtb_false. assert (0 <= soc p * capacity_kwh p) by (apply Rmult_le_pos; lra).
    lra. }
  rewrite Hg. f_equal; [ring|].
  destruct p as [c s e m]; unfold set_soc; cbn in *. f_equal.
  replace (s - 0 * dt / 3600 / c) with s by (field; lra).
  apply Rmax_right; lra.
Qed.



(** [request_power] writes [soc] only. *)
Lemma request_power_keeps_config (p : PowerSystem) (kw dt : R) :
  capacity_kwh (snd (request_power p kw dt)) = capacity_kwh p /\
  efficiency (snd (request_power p kw dt)) = efficiency p /\
  max_discharge_kw (snd (request_power p kw dt)) = max_discharge_kw p.
Proof. unfold request_power. now destruct (Rgtb _ _). Qed.

(** X4. The battery never recovers: if [can_support(k)] holds after a
    request, it held before it. *)
Theorem can_support_never_recovers (p : PowerSystem) (kw dt k : R) :
  0 < capacity_kwh p -> 0 <= max_discharge_kw p -> 0 <= soc p ->
  0 <= kw -> 0 < dt ->
  can_support (snd (request_power p kw dt)) k = true ->
  can_support p k = true.
Proof.
  intros Hcap Hmax Hsoc Hkw Hdt Hc.
  destruct (soc_after_request_le p kw dt Hcap Hmax Hsoc Hkw Hdt) as [Hle _].
  destruct (request_power_keeps_config p kw dt) as (_ & _ & Hcfg).
  unfold can_support in *. rewrite Hcfg in Hc.
  apply andb_true_iff in Hc. destruct Hc as [Hs Hk].
  apply andb_true_iff. split; [|exact Hk].
  apply Rgtb_true in Hs. apply Rgtb_true. lra.
Qed.

(** The battery as constructed after an hour at 5 kW: the charge is down
    to 0.9 and the check still passes, as it did before. *)
Lemma can_support_never_recovers_witness :
  soc (snd (request_power PowerSystem_init 5 3600)) = 9 / 10 /\
  can_support PowerSystem_init 5 = true.
Proof.
  assert (Hcap : 0 < capacity_kwh PowerSystem_init)
    by (cbn; unfold BATTERY_CAPACITY_KWH; lra).
  assert (Hmax : 0 <= max_discharge_kw PowerSystem_init)
    by (cbn; unfold MAX_DISCHARGE_RATE_KW; lra).
  assert (Hsoc0 : 0 <= soc PowerSystem_init) by (cbn; lra).
  assert (Hreq : requested_energy PowerSystem_init 5 3600 = 5).
  { unfold requested_energy. cbn. unfold MAX_DISCHARGE_RATE_KW.
    rewrite Rmin_left by lra. lra. }
  assert (Hsoc : soc (snd (request_power PowerSystem_init 5 3600)) = 9 / 10).
  { rewrite (request_power_charged PowerSystem_init 5 3600 Hcap).
    - rewrite Hreq. cbn. unfold BATTERY_CAPACITY_KWH. lra.
    - rewrite Hreq. cbn. unfold BATTERY_CAPACITY_KWH. lra. }
  split; [exact Hsoc|].
  apply (can_support_never_recovers PowerSystem_init 5 3600 5 Hcap Hmax Hsoc0);
    [lra | lra |].
  destruct (request_power_keeps_config PowerSystem_init 5 3600) as (_ & _ & Hcfg).
  unfold can_support. rewrite Hsoc, Hcfg. apply andb_true_iff. split.
  - apply Rgtb_true. lra.
  - apply Rleb_true. cbn. unfold MAX_DISCHARGE_RATE_KW. lra.
Defined.

(** ** PropulsionSystem: the three regimes of the force *)

Lemma vscale_one (v : Vec3) : vscale 1 v = v.
Proof. destruct v; unfold vscale; cbn. f_equal; ring. Qed.

Lemma norm_axis (x : R) : norm (mkVec3 x 0 0) = Rabs x.
Proof.
  unfold norm; cbn.
  replace (x * x + 0 * 0 + 0 * 0) with (Rsqr x) by (unfold Rsqr; ring).
  apply sqrt_Rsqr_abs.
Qed.

Lemma sqrt3_lt_2 : sqrt 3 < 2.
Proof.
  replace 2 with (sqrt 4).
  - apply sqrt_lt_1_alt; lra.
  - replace 4 with (2 * 2) by ring. apply sqrt_square; lra.
Qed.

Lemma sqrt3_bounds : 1732 / 1000 < sqrt 3 < 17321 / 10000.
Proof.
  split.
  - rewrite <- (sqrt_square (1732 / 1000)) by lra. apply sqrt_lt_1_alt. lra.
  - rewrite <- (sqrt_square (17321 / 10000)) by lra. apply sqrt_lt_1_alt. lra.
Qed.

(** The first force of the stage of 4000 kg asked for [x] m/s² along the
    first axis, [x] not negative. *)
Lemma norm_first_force (x : R) :
  0 <= x ->
  norm (vscale (mass_kg (PropulsionSystem_init 4000)) (mkVec3 x 0 0)) = 4000 * x.
Proof.
  intros Hx. rewrite norm_vscale, norm_axis. cbn [mass_kg PropulsionSystem_init].
  rewrite !Rabs_right by lra. reflexivity.
Qed.

(** X5. The force keeps the direction of [mass_kg * accel]: it is that
    vector times a positive factor, in all three regimes. *)
Theorem thrust_keeps_direction (p : PropulsionSystem) (accel : Vec3) :
  propulsion_configured p ->
  exists k, 0 < k /\
    fst (fst (thrust_from_acceleration p accel)) = vscale k (vscale (mass_kg p) accel).
Proof.
  intros Hcfg. rewrite (thrust_force_cases p accel Hcfg).
  set (f0 := vscale (mass_kg p) accel).
  pose proof (norm_nonneg f0) as Hnn. pose proof sqrt3_ge_1 as Hs.
  destruct (Rgtb (norm f0) (sqrt 3 * 450)) eqn:Hg.
  - apply Rgtb_true in Hg. exists (sqrt 3 * 450 / norm f0). split; [|reflexivity].
    apply Rmult_lt_0_compat; [nra | apply Rinv_0_lt_compat; nra].
  - destruct (Rltb (norm f0) 50) eqn:Hl.
    + exists (50 / (norm f0 + 1e-8)). split; [|reflexivity].
      apply Rmult_lt_0_compat; [lra | apply Rinv_0_lt_compat; lra].
    + exists 1. split; [lra | now rewrite vscale_one].
Qed.

Lemma thrust_keeps_direction_witness :
  exists k, 0 < k /\
    fst (fst (thrust_from_acceleration (PropulsionSystem_init 4000) (mkVec3 1 1 1)))
    = vscale k (vscale (mass_kg (PropulsionSystem_init 4000)) (mkVec3 1 1 1)).
Proof.
  apply (thrust_keeps_direction (PropulsionSystem_init 4000) (mkVec3 1 1 1)).
  apply PropulsionSystem_init_configured.
Defined.

(** X6. Between the vernier level and the cap the force is the requested
    one: for [51 <= |mass_kg * accel| <= 779], inside the two thresholds
    by more than rounding can move them, the function returns
    [mass_kg * accel] itself. *)
Theorem thrust_in_range_is_requested (p : PropulsionSystem) (accel : Vec3) :
  propulsion_configured p ->
  51 <= norm (vscale (mass_kg p) accel) <= 779 ->
  fst (fst (thrust_from_acceleration p accel)) = vscale (mass_kg p) accel.
Proof.
  intros Hcfg [Hlo Hhi]. rewrite (thrust_force_cases p accel Hcfg).
  pose proof sqrt3_bounds as [Hs _].
  assert (Hg : Rgtb (norm (vscale (mass_kg p) accel)) (sqrt 3 * 450) = false)
    by (apply Rgtb_false; lra).
  assert (Hl : Rltb (norm (vscale (mass_kg p) accel)) 50 = false)
    by (apply Rltb_false; lra).
  now rewrite Hg, Hl.
Qed.

(** 0.1 m/s² along the first axis: 400 N. *)
Lemma thrust_in_range_is_requested_witness :
  fst (fst (thrust_from_acceleration (PropulsionSystem_init 4000) (mkVec3 (1 / 10) 0 0)))
  = vscale (mass_kg (PropulsionSystem_init 4000)) (mkVec3 (1 / 10) 0 0).
Proof.
  apply (thrust_in_range_is_requested (PropulsionSystem_init 4000) (mkVec3 (1 / 10) 0 0)).
  - apply PropulsionSystem_init_configured.
  - rewrite norm_first_force by lra. lra.
Defined.

(** X7. Over the cap the force is cut down to it: for
    [|mass_kg * accel| >= 780] the force returned is smaller than the one
    asked for and its magnitude lies between 779.4 and 779.5 N, around
    [sqrt 3 * 450]. *)
Theorem thrust_saturates (p : PropulsionSystem) (accel : Vec3) :
  propulsion_configured p ->
  780 <= norm (vscale (mass_kg p) accel) ->
  7794 / 10 < norm (fst (fst (thrust_from_acceleration p accel))) < 7795 / 10 /\
  norm (fst (fst (thrust_from_acceleration p accel)))
    < norm (vscale (mass_kg p) accel).
Proof.
  intros Hcfg Hhi. rewrite (thrust_force_cases p accel Hcfg).
  set (f0 := vscale (mass_kg p) accel) in *. pose proof sqrt3_bounds as [Hs1 Hs2].
  assert (Hg : Rgtb (norm f0) (sqrt 3 * 450) = true) by (apply Rgtb_true; lra).
  assert (Hn : norm (vscale (sqrt 3 * 450 / norm f0) f0) = sqrt 3 * 450).
  { rewrite norm_vscale, Rabs_right.
    - field. lra.
    - apply Rle_ge, Rmult_le_pos; [lra | left; apply Rinv_0_lt_compat; lra]. }
  rewrite Hg, Hn. lra.
Qed.

(** 1 m/s² along the first axis: 4000 N asked. *)
Lemma thrust_saturates_witness :
  let p := PropulsionSystem_init 4000 in
  let a := mkVec3 1 0 0 in
  7794 / 10 < norm (fst (fst (thrust_from_acceleration p a))) < 7795 / 10 /\
  norm (fst (fst (thrust_from_acceleration p a))) < norm (vscale (mass_kg p) a).
Proof.
  intros p a. apply (thrust_saturates p a).
  - apply PropulsionSystem_init_configured.
  - subst p a. rewrite norm_first_force by lra. lra.
Defined.

(** X8. Under the vernier level the force is scaled to magnitude
    [50 * mag / (mag + 1e-8)], [mag] being the magnitude asked for: always
    short of 50 N, and above [mag] as long as [mag] is positive and under
    [50 - 1e-8]. *)
Theorem thrust_vernier_regime (p : PropulsionSystem) (accel : Vec3) :
  propulsion_configured p ->
  norm (vscale (mass_kg p) accel) < 50 ->
  norm (fst (fst (thrust_from_acceleration p accel)))
    = 50 * norm (vscale (mass_kg p) accel) / (norm (vscale (mass_kg p) accel) + 1e-8) /\
  norm (fst (fst (thrust_from_acceleration p accel))) < 50 /\
  (0 < norm (vscale (mass_kg p) accel) < 50 - 1e-8 ->
   norm (vscale (mass_kg p) accel) < norm (fst (fst (thrust_from_acceleration p accel)))).
Proof.
  intros Hcfg Hlo. rewrite (thrust_force_cases p accel Hcfg).
  set (f0 := vscale (mass_kg p) accel) in *.
  pose proof (norm_nonneg f0) as Hnn. pose proof sqrt3_ge_1 as Hs.
  assert (Hg : Rgtb (norm f0) (sqrt 3 * 450) = false) by (apply Rgtb_false; nra).
  assert (Hl : Rltb (norm f0) 50 = true) by (apply Rltb_true; exact Hlo).
  rewrite Hg, Hl, norm_vscale, Rabs_right
    by (apply Rle_ge, Rmult_le_pos; [lra | left; apply Rinv_0_lt_compat; lra]).
  set (n := norm f0) in *.
  assert (Hpos : 0 < n + 1e-8) by lra.
  assert (Heq : 50 / (n + 1e-8) * n = 50 * n / (n + 1e-8)) by (field; lra).
  rewrite Heq. split; [reflexivity|]. split.
  - apply (Rmult_lt_reg_r (n + 1e-8)); [exact Hpos|].
    replace (50 * n / (n + 1e-8) * (n + 1e-8)) with (50 * n) by (field; lra). lra.
  - intros [Hn0 Hn1].
    apply (Rmult_lt_reg_r (n + 1e-8)); [exact Hpos|].
    replace (50 * n / (n + 1e-8) * (n + 1e-8)) with (50 * n) by (field; lra). nra.
Qed.

(** 0.01 m/s² along the first axis: 40 N asked. *)
Lemma thrust_vernier_regime_witness :
  let p := PropulsionSystem_init 4000 in
  let a := mkVec3 (1 / 100) 0 0 in
  norm (fst (fst (thrust_from_acceleration p a)))
    = 50 * norm (vscale (mass_kg p) a) / (norm (vscale (mass_kg p) a) + 1e-8) /\
  norm (fst (fst (thrust_from_acceleration p a))) < 50 /\
  (0 < norm (vscale (mass_kg p) a) < 50 - 1e-8 ->
   norm (vscale (mass_kg p) a) < norm (fst (fst (thrust_from_acceleration p a)))).
Proof.
  intros p a. apply (thrust_vernier_regime p a).
  - apply PropulsionSystem_init_configured.
  - subst p a. rewrite norm_first_force by lra. lra.
Defined.



(** X10. Thrust is not limited by fuel: with an empty tank the function
    returns the same force and the same fuel figure as with any other
    level, and the tank stays at 0. *)
Theorem thrust_on_empty_tank (p : PropulsionSystem) (accel : Vec3) :
  propulsion_configured p ->
  fst (thrust_from_acceleration (set_fuel_kg p 0) accel)
    = fst (thrust_from_acceleration p accel) /\
  fuel_kg (snd (thrust_from_acceleration (set_fuel_kg p 0) accel)) = 0.
Proof.
  intros Hcfg. split; [reflexivity|].
  assert (Hcfg0 : propulsion_configured (set_fuel_kg p 0)) by exact Hcfg.
  rewrite fuel_after_thrust.
  pose proof (fuel_used_nonneg (set_fuel_kg p 0) accel Hcfg0) as Hused.
  cbn [fuel_kg set_fuel_kg]. rewrite Rmin_right by exact Hused. ring.
Qed.

Lemma thrust_on_empty_tank_witness :
  let p := PropulsionSystem_init 4000 in
  fst (thrust_from_acceleration (set_fuel_kg p 0) (mkVec3 1 1 1))
    = fst (thrust_from_acceleration p (mkVec3 1 1 1)) /\
  fuel_kg (snd (thrust_from_acceleration (set_fuel_kg p 0) (mkVec3 1 1 1))) = 0.
Proof.
  intros p. apply (thrust_on_empty_tank p (mkVec3 1 1 1)).
  apply PropulsionSystem_init_configured.
Defined.

(** ** GrabbingSystem: the net state machine *)

Lemma grabbing_consistent_init : grabbing_consistent GrabbingSystem_init.
Proof. unfold grabbing_consistent. cbn. intuition discriminate. Qed.

Lemma deploy_net_consistent (g : GrabbingSystem) (dt : R) :
  grabbing_consistent g -> grabbing_consistent (snd (deploy_net g dt)).
Proof.
  unfold grabbing_consistent. destruct g as [d dg c r td tr m th].
  unfold deploy_net. cbn.
  destruct d, dg; cbn; try destruct (Rgeb (td + dt) NET_DEPLOYMENT_TIME_S); cbn;
    intuition (discriminate || congruence).
Qed.

Lemma confirm_capture_consistent (g : GrabbingSystem) (m : R) :
  grabbing_consistent g -> grabbing_consistent (snd (confirm_capture g m)).
Proof.
  unfold grabbing_consistent. destruct g as [d dg c r td tr m0 th].
  unfold confirm_capture. cbn.
  destruct (Rleb m MAX_DEBRIS_MASS_KG), d; cbn;
    intuition (discriminate || congruence).
Qed.

Lemma retract_net_consistent (g : GrabbingSystem) (dt : R) :
  grabbing_consistent g -> grabbing_consistent (snd (retract_net g dt)).
Proof.
  unfold grabbing_consistent. destruct g as [d dg c r td tr m th].
  unfold retract_net. cbn.
  destruct c, r; cbn; intuition (discriminate || congruence).
Qed.

(** X11. The flags and timers of the net stay consistent: the grabbing
    system as constructed is consistent, and [deploy_net], [confirm_capture]
    and [retract_net] each take a consistent grabbing system to a
    consistent one, for every argument. *)
Theorem grabbing_consistent_kept :
  grabbing_consistent GrabbingSystem_init /\
  (forall g dt, grabbing_consistent g -> grabbing_consistent (snd (deploy_net g dt))) /\
  (forall g m, grabbing_consistent g -> grabbing_consistent (snd (confirm_capture g m))) /\
  (forall g dt, grabbing_consistent g -> grabbing_consistent (snd (retract_net g dt))).
Proof.
  split; [exact grabbing_consistent_init|].
  split; [exact deploy_net_consistent|].
  split; [exact confirm_capture_consistent | exact retract_net_consistent].
Qed.

Lemma grabbing_consistent_kept_witness :
  grabbing_consistent (snd (deploy_net GrabbingSystem_init 1)).
Proof.
  apply (proj1 (proj2 grabbing_consistent_kept) GrabbingSystem_init 1).
  exact (proj1 grabbing_consistent_kept).
Defined.

Section DeployTimes.

Variable dt : R.
Hypothesis Hdt : 0 <= dt.

(** After [n] calls from the start, either the net is not out and the
    timer reads [n * dt], short of 3 s, or the net is out and [n * dt]
    has reached 3 s. *)
Lemma deploy_net_times_inv (n : nat) :
  let g := deploy_net_times n GrabbingSystem_init dt in
  (net_deployed g = false /\ deploy_timer g = INR n * dt /\ INR n * dt < 3) \/
  (net_deployed g = true /\ 3 <= INR n * dt).
Proof.
  induction n as [|n IH]; cbn zeta.
  - left. cbn. repeat split; lra.
  - cbn zeta in IH. cbn [deploy_net_times].
    set (g := deploy_net_times n GrabbingSystem_init dt) in *.
    rewrite S_INR.
    destruct IH as [(Hd & Ht & Hlt) | (Hd & Hge)].
    + destruct (deploy_net_step g dt Hd) as [Hret Htimer].
      rewrite Hret, Htimer, Ht.
      replace ((INR n + 1) * dt) with (INR n * dt + dt) by ring.
      destruct (Rgeb (INR n * dt + dt) 3) eqn:Hg.
      * right. apply Rgeb_true in Hg. now split.
      * left. apply Rgeb_false in Hg. now repeat split.
    + right. unfold deploy_net. rewrite Hd. cbn. split; [exact Hd | nra].
Qed.

End DeployTimes.

(** X12. Deployment takes 3 s of calls: after [n] calls of
    [deploy_net(dt)] on a new grabbing system, with [dt >= 0], the net is
    not deployed while [n * dt <= 2.999] and is deployed once
    [n * dt >= 3.001]. *)
Theorem deploy_net_times_deployed (n : nat) (dt : R) :
  0 <= dt ->
  (INR n * dt <= 2999 / 1000 ->
   net_deployed (deploy_net_times n GrabbingSystem_init dt) = false) /\
  (3001 / 1000 <= INR n * dt ->
   net_deployed (deploy_net_times n GrabbingSystem_init dt) = true).
Proof.
  intros Hdt.
  destruct (deploy_net_times_inv dt Hdt n) as [(Hd & _ & Hlt) | (Hd & Hge)];
    rewrite Hd; split; intros; try reflexivity; lra.
Qed.

(** Two calls of one second, then four. *)
Lemma deploy_net_times_deployed_witness :
  net_deployed (deploy_net_times 2 GrabbingSystem_init 1) = false /\
  net_deployed (deploy_net_times 4 GrabbingSystem_init 1) = true.
Proof.
  assert (Hdt : 0 <= 1) by lra. split.
  - apply (proj1 (deploy_net_times_deployed 2 1 Hdt)).
    replace (INR 2) with 2 by (cbn; lra). lra.
  - apply (proj2 (deploy_net_times_deployed 4 1 Hdt)).
    replace (INR 4) with 4 by (cbn; lra). lra.
Defined.

(** ** [decide_phase]: where a phase can go *)

Section PhaseSteps.
Context `{Controls}.

Variable b : AIBrain.
Variable st : StateVec.
Variable tgt : Vec3.

Let dist := norm (vsub (st_pos st) tgt).

(** A rule "phase is [ph] and the distance is under [r]" that matches. *)
Lemma rule_matched (ph : MissionPhase) (r : R) :
  phase b = ph -> dist < r ->
  phase_eqb (phase b) ph && ext_ltb (Fin dist) r = true.
Proof.
  intros Hph Hd. apply andb_true_iff. split.
  - now apply phase_eqb_eq.
  - cbn. now apply Rltb_true.
Qed.

Lemma decide_phase_unfold :
  decide_phase b st (Some tgt) =
  if phase_eqb (phase b) COARSE_APPROACH && ext_ltb (Fin dist) 500
  then FINE_APPROACH
  else if phase_eqb (phase b) FINE_APPROACH && ext_ltb (Fin dist) 5
  then CAPTURE
  else if phase_eqb (phase b) CAPTURE && ext_ltb (Fin dist) (1 / 100)
  then RETRACTING
  else if Rgeb (retract_timer (grabbing b)) 5 && capture_confirmed (grabbing b)
  then REENTRY
  else if phase_eqb (phase b) REENTRY then COMPLETE else phase b.
Proof. reflexivity. Qed.

Lemma override_test :
  Rgeb (retract_timer (grabbing b)) 5 && capture_confirmed (grabbing b) = true
  <-> override_holds (grabbing b).
Proof.
  unfold override_holds. rewrite andb_true_iff.
  split; intros [Ht Hc]; (split; [apply Rgeb_true; exact Ht | exact Hc]).
Qed.

Lemma decide_phase_successors :
  decide_phase b st (Some tgt) = phase b \/
  (phase b = COARSE_APPROACH /\ decide_phase b st (Some tgt) = FINE_APPROACH) \/
  (phase b = FINE_APPROACH /\ decide_phase b st (Some tgt) = CAPTURE) \/
  (phase b = CAPTURE /\ decide_phase b st (Some tgt) = RETRACTING) \/
  (override_holds (grabbing b) /\ decide_phase b st (Some tgt) = REENTRY) \/
  (phase b = REENTRY /\ ~ override_holds (grabbing b) /\
   decide_phase b st (Some tgt) = COMPLETE).
Proof.
  rewrite decide_phase_unfold.
  destruct (phase_eqb (phase b) COARSE_APPROACH && ext_ltb (Fin dist) 500) eqn:E2.
  { apply andb_true_iff in E2. destruct E2 as [E _]. apply phase_eqb_eq in E. tauto. }
  destruct (phase_eqb (phase b) FINE_APPROACH && ext_ltb (Fin dist) 5) eqn:E3.
  { apply andb_true_iff in E3. destruct E3 as [E _]. apply phase_eqb_eq in E. tauto. }
  destruct (phase_eqb (phase b) CAPTURE && ext_ltb (Fin dist) (1 / 100)) eqn:E4.
  { apply andb_true_iff in E4. destruct E4 as [E _]. apply phase_eqb_eq in E. tauto. }
  destruct (Rgeb (retract_timer (grabbing b)) 5 && capture_confirmed (grabbing b)) eqn:E5.
  { apply override_test in E5. tauto. }
  assert (Hno : ~ override_holds (grabbing b))
    by (intros Ho; apply override_test in Ho; congruence).
  destruct (phase_eqb (phase b) REENTRY) eqn:E6.
  - apply phase_eqb_eq in E6. tauto.
  - tauto.
Qed.

End PhaseSteps.

(** X13. With a target, [decide_phase] moves the phase by at most one
    step: it returns the current phase, or the next approach phase
    ([COARSE_APPROACH] to [FINE_APPROACH], [FINE_APPROACH] to [CAPTURE],
    [CAPTURE] to [RETRACTING]), or [REENTRY] on the override, or
    [COMPLETE] from [REENTRY] when the override does not hold.  It never
    returns [PAYLOAD_DEPLOYED], [SEEKING_DEBRIS] or [COARSE_APPROACH]
    unless that is the current phase. *)
Theorem decide_phase_one_step `{Controls} (b : AIBrain) (st : StateVec) (tgt : Vec3) :
  (decide_phase b st (Some tgt) = phase b \/
   (phase b = COARSE_APPROACH /\ decide_phase b st (Some tgt) = FINE_APPROACH) \/
   (phase b = FINE_APPROACH /\ decide_phase b st (Some tgt) = CAPTURE) \/
   (phase b = CAPTURE /\ decide_phase b st (Some tgt) = RETRACTING) \/
   (override_holds (grabbing b) /\ decide_phase b st (Some tgt) = REENTRY) \/
   (phase b = REENTRY /\ ~ override_holds (grabbing b) /\
    decide_phase b st (Some tgt) = COMPLETE)) /\
  (forall ph, In ph [PAYLOAD_DEPLOYED; SEEKING_DEBRIS; COARSE_APPROACH] ->
              decide_phase b st (Some tgt) = ph -> phase b = ph).
Proof.
  pose proof (decide_phase_successors b st tgt) as Hs.
  split; [exact Hs|].
  intros ph Hin Hd. rewrite Hd in Hs.
  destruct Hs as [Hs | [[_ Hs] | [[_ Hs] | [[_ Hs] | [[_ Hs] | (_ & _ & Hs)]]]]];
    [now symmetry | | | | |];
    cbn in Hin; destruct Hin as [<- | [<- | [<- | []]]]; discriminate Hs.
Qed.

(** X14. From [REENTRY], with a target: while the override holds
    ([retract_timer >= 5] and a confirmed capture) [decide_phase] returns
    [REENTRY], and [COMPLETE] is returned exactly when the override does
    not hold. *)
Theorem decide_phase_from_reentry `{Controls} (b : AIBrain) (st : StateVec) (tgt : Vec3) :
  phase b = REENTRY ->
  (override_holds (grabbing b) -> decide_phase b st (Some tgt) = REENTRY) /\
  (decide_phase b st (Some tgt) = COMPLETE <-> ~ override_holds (grabbing b)).
Proof.
  intros Hph.
  assert (Hd : decide_phase b st (Some tgt) =
               if Rgeb (retract_timer (grabbing b)) 5 && capture_confirmed (grabbing b)
               then REENTRY else COMPLETE).
  { rewrite decide_phase_past_rule4;
      try (intros [E _]; rewrite Hph in E; discriminate E).
    rewrite Hph. reflexivity. }
  rewrite Hd.
  destruct (Rgeb (retract_timer (grabbing b)) 5 && capture_confirmed (grabbing b)) eqn:E.
  - apply override_test in E. split; [reflexivity|].
    split; [discriminate | intros Hn; contradiction].
  - assert (Hno : ~ override_holds (grabbing b))
      by (intros Ho; apply (override_test b) in Ho; congruence).
    split; [intros Ho; contradiction | split; auto].
Qed.

Lemma decide_phase_from_reentry_witness :
  (override_holds (grabbing reentry_brain) ->
   decide_phase reentry_brain origin (Some (d_pos debris_300)) = REENTRY) /\
  (decide_phase reentry_brain origin (Some (d_pos debris_300)) = COMPLETE
   <-> ~ override_holds (grabbing reentry_brain)).
Proof.
  apply (decide_phase_from_reentry reentry_brain origin (d_pos debris_300)).
  reflexivity.
Defined.

(** X15. The approach rules come before the override: in
    [COARSE_APPROACH] under 500 m, [FINE_APPROACH] under 5 m and [CAPTURE]
    under 0.01 m, [decide_phase] returns the next approach phase whatever
    the grabbing system reports, the override condition included. *)
Theorem approach_rules_first `{Controls} (b : AIBrain) (st : StateVec) (tgt : Vec3) :
  (phase b = COARSE_APPROACH /\ norm (vsub (st_pos st) tgt) < 500 ->
   decide_phase b st (Some tgt) = FINE_APPROACH) /\
  (phase b = FINE_APPROACH /\ norm (vsub (st_pos st) tgt) < 5 ->
   decide_phase b st (Some tgt) = CAPTURE) /\
  (phase b = CAPTURE /\ norm (vsub (st_pos st) tgt) < 1 / 100 ->
   decide_phase b st (Some tgt) = RETRACTING).
Proof.
  rewrite decide_phase_unfold. repeat split; intros [Hph Hd].
  - now rewrite (rule_matched b st tgt _ _ Hph Hd).
  - rewrite (rule_not_matched b st tgt COARSE_APPROACH 500)
      by (intros [E _]; rewrite Hph in E; discriminate E).
    now rewrite (rule_matched b st tgt _ _ Hph Hd).
  - rewrite (rule_not_matched b st tgt COARSE_APPROACH 500)
      by (intros [E _]; rewrite Hph in E; discriminate E).
    rewrite (rule_not_matched b st tgt FINE_APPROACH 5)
      by (intros [E _]; rewrite Hph in E; discriminate E).
    now rewrite (rule_matched b st tgt _ _ Hph Hd).
Qed.

(** The brain in [CAPTURE] with the override condition met, on its
    target: rule 4 wins. *)
Lemma approach_rules_first_witness :
  decide_phase capture_brain (mkState (d_pos debris_300) zeros3)
    (Some (d_pos debris_300)) = RETRACTING.
Proof.
  apply (proj2 (proj2 (approach_rules_first capture_brain
                         (mkState (d_pos debris_300) zeros3) (d_pos debris_300)))).
  split; [reflexivity|].
  assert (Hz : vsub (d_pos debris_300) (d_pos debris_300) = zeros3)
    by (unfold vsub, zeros3; cbn; f_equal; ring).
  cbn [st_pos]. rewrite Hz, norm_zeros3. lra.
Defined.

(** ** [identify_nearest_debris]: edge cases and order *)

(** X16. [identify_nearest_debris] returns [None] for the empty catalog
    and for no other. *)
Theorem identify_nearest_debris_none (st : StateVec) (catalog : list Debris) :
  identify_nearest_debris st catalog = None <-> catalog = [].
Proof.
  split.
  - intros Hn. destruct catalog as [|d l]; [reflexivity|].
    destruct (identify_nearest_debris_spec st (d :: l)) as (i & d' & Hid & _);
      [discriminate | congruence].
  - intros ->. reflexivity.
Qed.

Lemma nearest_is_minimal (pos : Vec3) (catalog : list Debris) (i : nat) (d d' : Debris) :
  is_nearest pos catalog i d -> In d' catalog ->
  In d catalog /\ distance_to pos d <= distance_to pos d'.
Proof.
  intros (Hi & Hmin & _) Hin. split.
  - eapply nth_error_In; eassumption.
  - destruct (In_nth_error _ _ Hin) as [j Hj]. exact (Hmin j d' Hj).
Qed.

(** X17. The order of the catalog decides ties only: on two catalogs that
    are permutations of each other the entries selected are at the same
    distance from the position. *)
Theorem nearest_distance_permutation (st : StateVec) (c1 c2 : list Debris) :
  Permutation c1 c2 -> c1 <> [] ->
  exists d1 d2,
    identify_nearest_debris st c1 = Some d1 /\
    identify_nearest_debris st c2 = Some d2 /\
    distance_to (st_pos st) d1 = distance_to (st_pos st) d2.
Proof.
  intros Hperm Hne.
  assert (Hne2 : c2 <> [])
    by (intros ->; apply Permutation_sym, Permutation_nil in Hperm; contradiction).
  destruct (identify_nearest_debris_spec st c1 Hne) as (i1 & d1 & Hid1 & Hn1).
  destruct (identify_nearest_debris_spec st c2 Hne2) as (i2 & d2 & Hid2 & Hn2).
  exists d1, d2. split; [exact Hid1|]. split; [exact Hid2|].
  assert (Hin1 : In d1 c1) by (destruct Hn1 as (H & _); eapply nth_error_In; exact H).
  assert (Hin2 : In d2 c2) by (destruct Hn2 as (H & _); eapply nth_error_In; exact H).
  destruct (nearest_is_minimal _ _ _ _ d2 Hn1) as [_ Hle1];
    [eapply Permutation_in; [apply Permutation_sym; exact Hperm | exact Hin2]|].
  destruct (nearest_is_minimal _ _ _ _ d1 Hn2) as [_ Hle2];
    [eapply Permutation_in; [exact Hperm | exact Hin1]|].
  lra.
Qed.

(** The catalog of main.py and the same entries in reverse. *)
Lemma nearest_distance_permutation_witness :
  exists d1 d2,
    identify_nearest_debris origin main_catalog = Some d1 /\
    identify_nearest_debris origin (rev main_catalog) = Some d2 /\
    distance_to (st_pos origin) d1 = distance_to (st_pos origin) d2.
Proof.
  apply (nearest_distance_permutation origin main_catalog (rev main_catalog)).
  - apply Permutation_rev.
  - discriminate.
Defined.

(** * Further properties of the tick *)

Section TickFrame.
Context `{Controls}.

Variable b : AIBrain.
Variable st : StateVec.
Variable dt : R.

(** Target identification writes the target and the phase only, and
    nothing when a target is already set. *)
Lemma identify_target_keeps :
  power (identify_target b st) = power b /\
  propulsion (identify_target b st) = propulsion b /\
  grabbing (identify_target b st) = grabbing b /\
  debris_catalog (identify_target b st) = debris_catalog b /\
  state (identify_target b st) = state b /\
  (phase (identify_target b st) = phase b \/
   phase (identify_target b st) = COARSE_APPROACH) /\
  (forall d, target_debris b = Some d -> identify_target b st = b) /\
  (debris_catalog b = [] -> identify_target b st = b).
Proof.
  unfold identify_target.
  destruct (target_debris b) as [d0|] eqn:Ht.
  - repeat split; auto.
  - destruct (debris_catalog b) as [|d l] eqn:Hc.
    + repeat split; auto; try (intros; discriminate).
    + cbn [target_debris set_target_debris].
      destruct (identify_nearest_debris st (d :: l)); cbn; rewrite ?Hc;
        repeat split; auto; try (intros; discriminate).
Qed.

Variable target : option Vec3.
Variable telemetry : Telemetry.

(** What the control computation does to the grabbing system. *)
Lemma control_by_phase_grabbing u t b3 :
  control_by_phase b st dt target telemetry = Returned (u, t, b3) ->
  grabbing b3 = grabbing b \/
  (phase b = CAPTURE /\
   (exists tgt, target = Some tgt /\ norm (vsub (st_pos st) tgt) < 1 / 1000) /\
   grabbing b3 = snd (deploy_net (grabbing b) dt)) \/
  (phase b = RETRACTING /\
   exists d, target_debris b = Some d /\
     grabbing b3 =
     snd (retract_net (snd (confirm_capture (grabbing b) (mass_or_default d))) dt)).
Proof.
  unfold control_by_phase.
  destruct (phase b) eqn:Hph; destruct target as [tgt|];
    try (intros E; injection E as <- <- <-; now left).
  - destruct (lqr_compute_control (lqr b) st tgt) as [u0 c].
    intros E; injection E as <- <- <-; now left.
  - destruct (mpc_compute_control (mpc b) st tgt) as [u0 c].
    intros E; injection E as <- <- <-; now left.
  - destruct (smc_compute_control (smc b) st tgt) as [u1 c1].
    destruct (adaptive_compute_control (adaptive b) st tgt u1) as [u0 c2].
    destruct (Rltb (norm (vsub (st_pos st) tgt)) (CAPTURE_TOLERANCE_MM / 1000)) eqn:Hl;
      intros E; injection E as <- <- <-; [|now left].
    right; left. split; [reflexivity|]. split; [|reflexivity].
    exists tgt. split; [reflexivity|].
    apply Rltb_true in Hl. unfold CAPTURE_TOLERANCE_MM in Hl. exact Hl.
  - destruct (target_debris b) as [d|] eqn:Ht; [|discriminate].
    intros E; injection E as <- <- <-. right; right.
    split; [reflexivity|]. now exists d.
  - destruct (target_debris b) as [d|] eqn:Ht; [|discriminate].
    intros E; injection E as <- <- <-. right; right.
    split; [reflexivity|]. now exists d.
Qed.

(** In a phase without a controller the command is zero and nothing is
    written. *)
Lemma control_by_phase_idle :
  In (phase b) [PAYLOAD_DEPLOYED; SEEKING_DEBRIS; COMPLETE] ->
  control_by_phase b st dt target telemetry = Returned (zeros3, telemetry, b).
Proof.
  intros Hin. unfold control_by_phase. cbn in Hin.
  destruct Hin as [<- | [<- | [<- | []]]]; now destruct target.
Qed.

(** The [RETRACTING] branch. *)
Lemma control_by_phase_retracting d :
  phase b = RETRACTING -> target_debris b = Some d ->
  control_by_phase b st dt target telemetry =
  Returned (zeros3,
            mkTelemetry (t_phase telemetry) (Some "retract") (t_error telemetry),
            set_grabbing b
              (snd (retract_net (snd (confirm_capture (grabbing b) (mass_or_default d)))
                      dt))).
Proof.
  intros Hph Ht. unfold control_by_phase. rewrite Hph, Ht. now destruct target.
Qed.

End TickFrame.

Section PoweredTick.
Context `{Controls}.

Variable b : AIBrain.
Variable st : StateVec.
Variable dt : R.
Hypothesis Hc : can_support (power b) 5 = true.

Let b1 := identify_target (set_state b st) st.
Let target := option_map d_pos (target_debris b1).
Let b2 := set_phase b1 (decide_phase b1 st target).
Let telemetry0 := mkTelemetry (phase_value (phase b)) None None.

(** A powered tick, cut at the control computation. *)
Lemma powered_tick :
  exists u t b3,
    control_by_phase b2 st dt target telemetry0 = Returned (u, t, b3) /\
    compute_control b st dt = Returned (u, t, consume b3 u dt) /\
    phase b3 = phase b2 /\
    target_debris b3 = target_debris b1 /\
    debris_catalog b3 = debris_catalog b /\
    power b3 = power b /\
    propulsion b3 = propulsion b.
Proof.
  destruct (control_by_phase_returns b2 st dt target telemetry0
              (retracting_has_target b st))
    as (u & t & b3 & Heq & _ & Hph & Htg & Hcat & Hpw & Hpr).
  exists u, t, b3. split; [exact Heq|]. split.
  - rewrite (compute_control_powered b st dt Hc). fold b1 target b2 telemetry0.
    now rewrite Heq.
  - destruct (identify_target_keeps (set_state b st) st)
      as (Kpw & Kpr & _ & Kcat & _).
    repeat split; auto.
    + rewrite Hcat. exact Kcat.
    + rewrite Hpw. exact Kpw.
    + rewrite Hpr. exact Kpr.
Qed.

End PoweredTick.

(** X18. A tick never changes the catalog and never replaces a target
    that is set: there is no re-targeting. *)
Theorem tick_keeps_target `{Controls} (b : AIBrain) (st : StateVec) (dt : R) :
  exists u t b',
    compute_control b st dt = Returned (u, t, b') /\
    debris_catalog b' = debris_catalog b /\
    (forall d, target_debris b = Some d -> target_debris b' = Some d).
Proof.
  destruct (can_support (power b) 5) eqn:Hc.
  - destruct (powered_tick b st dt Hc)
      as (u & t & b3 & _ & Heq & _ & Htg & Hcat & _).
    exists u, t, (consume b3 u dt). split; [exact Heq|]. split; [exact Hcat|].
    intros d Hd.
    change (target_debris (consume b3 u dt)) with (target_debris b3).
    rewrite Htg.
    destruct (identify_target_keeps (set_state b st) st) as (_ & _ & _ & _ & _ & _ & K & _).
    rewrite (K d Hd). exact Hd.
  - rewrite (compute_control_low b st dt Hc). eexists _, _, _.
    split; [reflexivity|]. split; [reflexivity | auto].
Qed.

Section Resources.
Context `{Controls}.

Variable b : AIBrain.
Hypothesis Hres : resources_sound b.


(** A zero command consumes nothing. *)
Lemma consume_zero (dt : R) : consume b zeros3 dt = b.
Proof.
  destruct Hres as (Hcap & Hmax & [Hs0 Hs1] & Hcfg & Hfuel).
  unfold consume. rewrite norm_zeros3, Rmult_0_l.
  rewrite (request_power_nothing (power b) dt Hcap Hmax Hs0).
  cbn [snd power propulsion set_power].
  assert (Hp : snd (thrust_from_acceleration (propulsion b) zeros3) = propulsion b).
  { pose proof (thrust_force_of_zero (propulsion b) Hcfg) as Hf.
    assert (Hu : snd (fst (thrust_from_acceleration (propulsion b) zeros3)) = 0).
    { change (snd (fst (thrust_from_acceleration (propulsion b) zeros3)))
        with (norm (fst (fst (thrust_from_acceleration (propulsion b) zeros3)))
              / (isp (propulsion b) * 9.81) * (1 / 10)).
      rewrite Hf, norm_zeros3. unfold Rdiv. ring. }
    change (snd (thrust_from_acceleration (propulsion b) zeros3))
      with (set_fuel_kg (propulsion b)
              (fuel_kg (propulsion b)
               - Rmin (snd (fst (thrust_from_acceleration (propulsion b) zeros3)))
                   (fuel_kg (propulsion b)))).
    rewrite Hu, Rmin_left by exact Hfuel.
    destruct (propulsion b); unfold set_fuel_kg; cbn. f_equal. ring. }
  rewrite Hp. now destruct b.
Qed.

End Resources.




(** X20. With no target and an empty catalog, a tick that passes the
    power check puts the brain in [SEEKING_DEBRIS], commands zero with no
    control mode, and leaves the target unset and the grabbing system as
    it was. *)
Theorem tick_without_catalog `{Controls} (b : AIBrain) (st : StateVec) (dt : R) :
  can_support (power b) 5 = true ->
  target_debris b = None -> debris_catalog b = [] ->
  exists b',
    compute_control b st dt =
      Returned (zeros3, mkTelemetry (phase_value (phase b)) None None, b') /\
    phase b' = SEEKING_DEBRIS /\
    target_debris b' = None /\
    grabbing b' = grabbing b.
Proof.
  intros Hc Ht Hcat.
  rewrite (compute_control_powered b st dt Hc).
  destruct (identify_target_keeps (set_state b st) st) as (_ & _ & _ & _ & _ & _ & _ & K).
  rewrite (K Hcat).
  change (target_debris (set_state b st)) with (target_debris b). rewrite Ht.
  cbn [option_map decide_phase].
  rewrite control_by_phase_idle by (cbn; auto).
  eexists. split; [reflexivity|]. cbn. now rewrite Ht.
Qed.

(** The brain as constructed, before any catalog is given. *)
Lemma tick_without_catalog_witness :
  exists b',
    compute_control (@AIBrain_init idle_controls) origin (1 / 10) =
      Returned (zeros3, mkTelemetry "payload_deployed" None None, b') /\
    phase b' = SEEKING_DEBRIS /\
    target_debris b' = None /\
    grabbing b' = grabbing (@AIBrain_init idle_controls).
Proof.
  apply (tick_without_catalog (@AIBrain_init idle_controls) origin (1 / 10)).
  - exact can_support_init.
  - reflexivity.
  - reflexivity.
Defined.

(** ** Ticks that change nothing *)

Lemma set_phase_same `{Controls} (b : AIBrain) : set_phase b (phase b) = b.
Proof. now destruct b. Qed.

Lemma set_grabbing_same `{Controls} (b : AIBrain) : set_grabbing b (grabbing b) = b.
Proof. now destruct b. Qed.

Lemma no_override_test `{Controls} (b : AIBrain) :
  ~ override_holds (grabbing b) ->
  Rgeb (retract_timer (grabbing b)) 5 && capture_confirmed (grabbing b) = false.
Proof.
  intros Hno.
  destruct (Rgeb (retract_timer (grabbing b)) 5 && capture_confirmed (grabbing b)) eqn:E;
    [|reflexivity].
  apply override_test in E. contradiction.
Qed.

(** A failed confirmation followed by a retraction leaves the grabbing
    system as it was. *)
Lemma unconfirmed_retraction (g : GrabbingSystem) (m dt : R) :
  capture_confirmed g = false ->
  net_deployed g = false \/ 500 < m ->
  snd (retract_net (snd (confirm_capture g m)) dt) = g.
Proof.
  intros Hc Hfail.
  assert (Hconf : confirm_capture g m = (false, g)).
  { unfold confirm_capture, MAX_DEBRIS_MASS_KG. destruct Hfail as [Hd | Hm].
    - now rewrite Hd, andb_false_r.
    - assert (Hl : Rleb m 500 = false) by (apply Rleb_false; exact Hm).
      now rewrite Hl. }
  rewrite Hconf. cbn [snd]. unfold retract_net. now rewrite Hc.
Qed.

Section Stalls.
Context `{Controls}.

Variable b : AIBrain.
Variable d : Debris.
Hypothesis Hres : resources_sound b.
Hypothesis Htgt : target_debris b = Some d.

(** One tick of a brain that waits in a phase without a controller. *)
Lemma idle_tick (st : StateVec) (dt : R) :
  In (phase b) [PAYLOAD_DEPLOYED; SEEKING_DEBRIS; COMPLETE] ->
  ~ override_holds (grabbing b) ->
  exists u t, compute_control b st dt = Returned (u, t, set_state b st).
Proof.
  intros Hin Hno.
  destruct (can_support (power b) 5) eqn:Hc;
    [|rewrite (compute_control_low b st dt Hc); now eexists _, _].
  rewrite (compute_control_powered b st dt Hc).
  destruct (identify_target_keeps (set_state b st) st) as (_ & _ & _ & _ & _ & _ & K & _).
  rewrite (K d Htgt).
  change (target_debris (set_state b st)) with (target_debris b). rewrite Htgt.
  cbn [option_map].
  assert (Hd : decide_phase (set_state b st) st (Some (d_pos d)) = phase b).
  { rewrite decide_phase_past_rule4;
      try (intros [E _]; cbn in E, Hin; rewrite E in Hin;
           destruct Hin as [X | [X | [X | []]]]; discriminate X).
    change (grabbing (set_state b st)) with (grabbing b).
    rewrite (no_override_test b Hno).
    change (phase (set_state b st)) with (phase b).
    cbn in Hin. destruct Hin as [<- | [<- | [<- | []]]]; reflexivity. }
  rewrite Hd.
  change (phase b) with (phase (set_state b st)) at 1. rewrite set_phase_same.
  rewrite control_by_phase_idle by exact Hin.
  rewrite (consume_zero (set_state b st) Hres). now eexists _, _.
Qed.

(** One tick of a brain in [RETRACTING] whose capture cannot be
    confirmed. *)
Lemma unconfirmed_tick (st : StateVec) (dt : R) :
  phase b = RETRACTING ->
  capture_confirmed (grabbing b) = false ->
  net_deployed (grabbing b) = false \/ 500 < mass_or_default d ->
  exists u t, compute_control b st dt = Returned (u, t, set_state b st).
Proof.
  intros Hph Hcc Hfail.
  destruct (can_support (power b) 5) eqn:Hc;
    [|rewrite (compute_control_low b st dt Hc); now eexists _, _].
  rewrite (compute_control_powered b st dt Hc).
  destruct (identify_target_keeps (set_state b st) st) as (_ & _ & _ & _ & _ & _ & K & _).
  rewrite (K d Htgt).
  change (target_debris (set_state b st)) with (target_debris b). rewrite Htgt.
  cbn [option_map].
  assert (Hno : ~ override_holds (grabbing b))
    by (intros [_ Ho]; congruence).
  assert (Hd : decide_phase (set_state b st) st (Some (d_pos d)) = phase b).
  { rewrite decide_phase_past_rule4;
      try (intros [E _]; cbn in E; rewrite Hph in E; discriminate E).
    change (grabbing (set_state b st)) with (grabbing b).
    rewrite (no_override_test b Hno).
    change (phase (set_state b st)) with (phase b). now rewrite Hph. }
  rewrite Hd.
  change (phase b) with (phase (set_state b st)) at 1. rewrite set_phase_same.
  rewrite (control_by_phase_retracting (set_state b st) st dt _ _ d Hph Htgt).
  change (grabbing (set_state b st)) with (grabbing b).
  rewrite (unconfirmed_retraction _ _ dt Hcc Hfail).
  change (grabbing b) with (grabbing (set_state b st)). rewrite set_grabbing_same.
  rewrite (consume_zero (set_state b st) Hres). now eexists _, _.
Qed.

End Stalls.

Lemma set_state_twice `{Controls} (b : AIBrain) (s1 s2 : StateVec) :
  set_state (set_state b s1) s2 = set_state b s2.
Proof. reflexivity. Qed.

Lemma set_state_same `{Controls} (b : AIBrain) : set_state b (state b) = b.
Proof. now destruct b. Qed.

(** A property of the brain that does not read [self.state] and under
    which every tick leaves the brain as it was, [self.state] apart, holds
    after any sequence of ticks, and the brain is still as it was. *)
Lemma run_ticks_fixed `{Controls} (P : AIBrain -> Prop) :
  (forall b st, P b -> P (set_state b st)) ->
  (forall b st dt, P b -> exists u t,
        compute_control b st dt = Returned (u, t, set_state b st)) ->
  forall inputs b, P b ->
    exists b', run_ticks b inputs = Returned b' /\ P b' /\
               set_state b' (state b) = b.
Proof.
  intros Hstate Htick. induction inputs as [|[st dt] rest IH]; intros b HP.
  - exists b. split; [reflexivity|]. split; [exact HP | apply set_state_same].
  - cbn [run_ticks]. destruct (Htick b st dt HP) as (u & t & Heq). rewrite Heq.
    destruct (IH (set_state b st) (Hstate b st HP)) as (b' & Hrun & HP' & Hsame).
    exists b'. split; [exact Hrun|]. split; [exact HP'|].
    apply (f_equal (fun x => set_state x (state b))) in Hsame.
    rewrite !set_state_twice, set_state_same in Hsame. exact Hsame.
Qed.

Lemma brain_with_sound ph g tgt catalog :
  resources_sound (brain_with ph PowerSystem_init g tgt catalog).
Proof.
  unfold resources_sound; cbn.
  unfold BATTERY_CAPACITY_KWH, MAX_DISCHARGE_RATE_KW.
  repeat split; lra.
Qed.

Lemma no_override_init : ~ override_holds GrabbingSystem_init.
Proof. intros [_ Hc]. discriminate Hc. Qed.

(** X21. A brain with a target in [PAYLOAD_DEPLOYED], [SEEKING_DEBRIS] or
    [COMPLETE], the override condition not met, never moves: after any
    sequence of ticks it is as it was, [self.state] apart.  A target set
    from outside, as main.py sets it, leaves the brain in
    [PAYLOAD_DEPLOYED] for good. *)
Theorem idle_phase_stalls `{Controls} (b : AIBrain) (d : Debris)
    (inputs : list (StateVec * R)) :
  resources_sound b ->
  target_debris b = Some d ->
  In (phase b) [PAYLOAD_DEPLOYED; SEEKING_DEBRIS; COMPLETE] ->
  ~ override_holds (grabbing b) ->
  exists b', run_ticks b inputs = Returned b' /\ set_state b' (state b) = b.
Proof.
  intros Hres Htgt Hin Hno.
  destruct (run_ticks_fixed
              (fun b0 => resources_sound b0 /\ target_debris b0 = Some d /\
                         In (phase b0) [PAYLOAD_DEPLOYED; SEEKING_DEBRIS; COMPLETE] /\
                         ~ override_holds (grabbing b0)))
    with (inputs := inputs) (b := b) as (b' & Hrun & _ & Hsame).
  - intros b0 st HP. exact HP.
  - intros b0 st dt (R0 & T0 & I0 & N0). now apply (idle_tick b0 d).
  - split; [exact Hres | split; [exact Htgt | split; assumption]].
  - now exists b'.
Qed.

Lemma idle_phase_stalls_witness :
  exists b', run_ticks main_brain two_ticks = Returned b' /\
             set_state b' (state main_brain) = main_brain.
Proof.
  apply (idle_phase_stalls main_brain debris_300 two_ticks).
  - apply brain_with_sound.
  - reflexivity.
  - cbn; auto.
  - exact no_override_init.
Defined.

(** X22. A brain in [RETRACTING] whose capture is not confirmed and
    cannot be (the net is not deployed, or the target is heavier than
    500 kg) never moves: after any sequence of ticks it is as it was,
    [self.state] apart. *)
Theorem unconfirmed_capture_stalls `{Controls} (b : AIBrain) (d : Debris)
    (inputs : list (StateVec * R)) :
  resources_sound b ->
  target_debris b = Some d ->
  phase b = RETRACTING ->
  capture_confirmed (grabbing b) = false ->
  net_deployed (grabbing b) = false \/ 500 < mass_or_default d ->
  exists b', run_ticks b inputs = Returned b' /\ set_state b' (state b) = b.
Proof.
  intros Hres Htgt Hph Hcc Hfail.
  destruct (run_ticks_fixed
              (fun b0 => resources_sound b0 /\ target_debris b0 = Some d /\
                         phase b0 = RETRACTING /\
                         capture_confirmed (grabbing b0) = false /\
                         (net_deployed (grabbing b0) = false \/ 500 < mass_or_default d)))
    with (inputs := inputs) (b := b) as (b' & Hrun & _ & Hsame).
  - intros b0 st HP. exact HP.
  - intros b0 st dt (R0 & T0 & P0 & C0 & F0). now apply (unconfirmed_tick b0 d).
  - split; [exact Hres | split; [exact Htgt | split; [exact Hph | split; assumption]]].
  - now exists b'.
Qed.

Lemma unconfirmed_capture_stalls_witness :
  exists b', run_ticks stowed_brain two_ticks = Returned b' /\
             set_state b' (state stowed_brain) = stowed_brain.
Proof.
  apply (unconfirmed_capture_stalls stowed_brain debris_300 two_ticks).
  - apply brain_with_sound.
  - reflexivity.
  - reflexivity.
  - reflexivity.
  - left; reflexivity.
Defined.

(** X24. Low power is for good: once the power check fails, every later
    tick fails it too, and after any sequence of ticks the brain is as it
    was, [self.state] apart. *)
Theorem low_power_is_final `{Controls} (b : AIBrain) (inputs : list (StateVec * R)) :
  can_support (power b) 5 = false ->
  exists b', run_ticks b inputs = Returned b' /\
             can_support (power b') 5 = false /\
             set_state b' (state b) = b.
Proof.
  intros Hc.
  apply (run_ticks_fixed (fun b0 => can_support (power b0) 5 = false)).
  - intros b0 st HP. exact HP.
  - intros b0 st dt HP. rewrite (compute_control_low b0 st dt HP). now eexists _, _.
  - exact Hc.
Qed.

Lemma low_power_is_final_witness :
  exists b', run_ticks powerless_brain two_ticks = Returned b' /\
             can_support (power b') 5 = false /\
             set_state b' (state powerless_brain) = powerless_brain.
Proof.
  apply (low_power_is_final powerless_brain two_ticks).
  exact can_support_flat.
Defined.

(** ** What the ticks cannot do *)

Section NoCompletion.
Context `{Controls}.

(** Not in [COMPLETE], and in [REENTRY] only with the override met. *)
Let on_mission (b : AIBrain) : Prop :=
  phase b <> COMPLETE /\ (phase b = REENTRY -> override_holds (grabbing b)).

Lemma decide_phase_on_mission (b : AIBrain) (st : StateVec) (target : option Vec3) :
  on_mission b ->
  decide_phase b st target <> COMPLETE /\
  (decide_phase b st target = REENTRY -> override_holds (grabbing b)).
Proof.
  intros [Hnc Hre]. destruct target as [tgt|]; [|cbn; split; [|intros E]; discriminate].
  destruct (decide_phase_successors b st tgt)
    as [Hs | [[_ Hs] | [[_ Hs] | [[_ Hs] | [[Ho Hs] | (Hph & Hno & _)]]]]];
    try (rewrite Hs; split; [try exact Hnc; discriminate
                            | try exact Hre; try (intros _; exact Ho);
                              intros E; discriminate E]).
  now specialize (Hre Hph).
Qed.

Lemma tick_on_mission (b : AIBrain) (st : StateVec) (dt : R) :
  on_mission b ->
  exists u t b', compute_control b st dt = Returned (u, t, b') /\ on_mission b'.
Proof.
  intros Hon.
  destruct (can_support (power b) 5) eqn:Hc;
    [|rewrite (compute_control_low b st dt Hc); eexists _, _, _;
      split; [reflexivity | exact Hon]].
  destruct (powered_tick b st dt Hc) as (u & t & b3 & Hcbp & Heq & Hph3 & _).
  exists u, t, (consume b3 u dt). split; [exact Heq|].
  set (b1 := identify_target (set_state b st) st) in *.
  set (target := option_map d_pos (target_debris b1)) in *.
  destruct (identify_target_keeps (set_state b st) st)
    as (_ & _ & Kg & _ & _ & Kph & _). fold b1 in Kg, Kph.
  change (grabbing (set_state b st)) with (grabbing b) in Kg.
  change (phase (set_state b st)) with (phase b) in Kph.
  assert (Hon1 : on_mission b1).
  { destruct Hon as [Hnc Hre]. split.
    - destruct Kph as [K | K]; rewrite K; [exact Hnc | discriminate].
    - intros E. rewrite Kg. apply Hre.
      destruct Kph as [K | K]; congruence. }
  destruct (decide_phase_on_mission b1 st target Hon1) as [Dnc Dre].
  cbn [phase set_phase] in Hph3.
  split.
  - change (phase (consume b3 u dt)) with (phase b3). now rewrite Hph3.
  - change (phase (consume b3 u dt)) with (phase b3).
    change (grabbing (consume b3 u dt)) with (grabbing b3).
    rewrite Hph3. intros E.
    destruct (control_by_phase_grabbing _ st dt target _ u t b3 Hcbp)
      as [Hg | [(Hp & _) | (Hp & _)]];
      try (cbn [phase set_phase] in Hp; rewrite E in Hp; discriminate Hp).
    rewrite Hg. exact (Dre E).
Qed.

Lemma run_on_mission (inputs : list (StateVec * R)) :
  forall b, on_mission b ->
    exists b', run_ticks b inputs = Returned b' /\ on_mission b'.
Proof.
  induction inputs as [|[st dt] rest IH]; intros b Hon.
  - now exists b.
  - cbn [run_ticks].
    destruct (tick_on_mission b st dt Hon) as (u & t & b1 & Heq & Hon1).
    rewrite Heq. now apply IH.
Qed.

End NoCompletion.

(** X23. The ticks alone never complete the mission: from a brain that is
    not in [COMPLETE] (and, if in [REENTRY], has the override condition
    met, as every brain that reached [REENTRY] by a tick has), no sequence
    of ticks reaches [COMPLETE].  Rule 6 of [decide_phase] is shadowed by
    rule 5. *)
Theorem ticks_never_complete `{Controls} (b : AIBrain) (inputs : list (StateVec * R)) :
  phase b <> COMPLETE ->
  (phase b = REENTRY -> override_holds (grabbing b)) ->
  exists b', run_ticks b inputs = Returned b' /\ phase b' <> COMPLETE.
Proof.
  intros Hnc Hre.
  destruct (run_on_mission inputs b (conj Hnc Hre)) as (b' & Hrun & Hnc' & _).
  now exists b'.
Qed.

Lemma ticks_never_complete_witness :
  exists b', run_ticks reentry_brain two_ticks = Returned b' /\ phase b' <> COMPLETE.
Proof.
  apply (ticks_never_complete reentry_brain two_ticks).
  - discriminate.
  - intros _. split; [cbn; lra | reflexivity].
Defined.

(** The capture and retraction calls leave the deployment side alone. *)
Lemma retraction_keeps_net (g : GrabbingSystem) (m dt : R) :
  let g' := snd (retract_net (snd (confirm_capture g m)) dt) in
  net_deployed g' = net_deployed g /\
  net_deploying g' = net_deploying g /\
  deploy_timer g' = deploy_timer g /\
  deployment_thruster_active g' = deployment_thruster_active g.
Proof.
  unfold confirm_capture, retract_net.
  destruct (Rleb m MAX_DEBRIS_MASS_KG && net_deployed g); cbn.
  - destruct (retracting g); cbn; auto.
  - destruct (capture_confirmed g); cbn; [destruct (retracting g); cbn|]; auto.
Qed.

(** A brain that stays in [CAPTURE] is at least 0.01 m from its target. *)
Lemma capture_kept_far `{Controls} (b : AIBrain) (st : StateVec) (tgt : Vec3) :
  phase b = CAPTURE ->
  decide_phase b st (Some tgt) = CAPTURE ->
  1 / 100 <= norm (vsub (st_pos st) tgt).
Proof.
  intros Hph Hd.
  destruct (Rle_dec (1 / 100) (norm (vsub (st_pos st) tgt))) as [Hle|Hlt];
    [exact Hle | exfalso].
  apply Rnot_le_lt in Hlt.
  rewrite decide_phase_unfold in Hd.
  rewrite (rule_not_matched b st tgt COARSE_APPROACH 500) in Hd
    by (intros [E _]; rewrite Hph in E; discriminate E).
  rewrite (rule_not_matched b st tgt FINE_APPROACH 5) in Hd
    by (intros [E _]; rewrite Hph in E; discriminate E).
  rewrite (rule_matched b st tgt _ _ Hph Hlt) in Hd. discriminate Hd.
Qed.

(** X25. The net is deployed from one place only: a tick that does not
    begin in [FINE_APPROACH] leaves [net_deployed], [net_deploying],
    [deploy_timer] and the deployment thruster as they were.  A brain
    already in [CAPTURE] never calls [deploy_net]: within 0.01 m it goes
    to [RETRACTING], and farther out the 1 mm test fails. *)
Theorem deploy_only_from_fine_approach `{Controls} (b : AIBrain) (st : StateVec) (dt : R) :
  phase b <> FINE_APPROACH ->
  exists u t b',
    compute_control b st dt = Returned (u, t, b') /\
    net_deployed (grabbing b') = net_deployed (grabbing b) /\
    net_deploying (grabbing b') = net_deploying (grabbing b) /\
    deploy_timer (grabbing b') = deploy_timer (grabbing b) /\
    deployment_thruster_active (grabbing b') = deployment_thruster_active (grabbing b).
Proof.
  intros Hnf.
  destruct (can_support (power b) 5) eqn:Hc;
    [|rewrite (compute_control_low b st dt Hc); eexists _, _, _;
      split; [reflexivity | now repeat split]].
  destruct (powered_tick b st dt Hc) as (u & t & b3 & Hcbp & Heq & _).
  exists u, t, (consume b3 u dt). split; [exact Heq|].
  change (grabbing (consume b3 u dt)) with (grabbing b3).
  set (b1 := identify_target (set_state b st) st) in *.
  set (target := option_map d_pos (target_debris b1)) in *.
  destruct (identify_target_keeps (set_state b st) st)
    as (_ & _ & Kg & _ & _ & Kph & _). fold b1 in Kg, Kph.
  change (grabbing (set_state b st)) with (grabbing b) in Kg.
  change (phase (set_state b st)) with (phase b) in Kph.
  destruct (control_by_phase_grabbing _ st dt target _ u t b3 Hcbp)
    as [Hg | [(Hp & (tgt & Ht & Hnear) & _) | (_ & d & _ & Hg)]].
  - rewrite Hg. cbn [grabbing set_phase]. rewrite Kg. now repeat split.
  - exfalso. cbn [phase set_phase] in Hp. rewrite Ht in Hp.
    destruct (decide_phase_successors b1 st tgt)
      as [Hs | [[_ Hs] | [[Hf _] | [[_ Hs] | [[_ Hs] | (_ & _ & Hs)]]]]];
      try (rewrite Hs in Hp; discriminate Hp).
    + rewrite Hp in Hs. symmetry in Hs.
      pose proof (capture_kept_far b1 st tgt Hs Hp). lra.
    + destruct Kph as [K | K]; congruence.
  - rewrite Hg. cbn [grabbing set_phase]. rewrite Kg.
    apply retraction_keeps_net.
Qed.

(** The tick of the brain that is in [CAPTURE] on top of its target. *)
Lemma deploy_only_from_fine_approach_witness :
  exists u t b',
    compute_control capture_brain (mkState (d_pos debris_300) zeros3) (1 / 10)
      = Returned (u, t, b') /\
    net_deployed (grabbing b') = net_deployed (grabbing capture_brain) /\
    net_deploying (grabbing b') = net_deploying (grabbing capture_brain) /\
    deploy_timer (grabbing b') = deploy_timer (grabbing capture_brain) /\
    deployment_thruster_active (grabbing b')
      = deployment_thruster_active (grabbing capture_brain).
Proof.
  apply (deploy_only_from_fine_approach capture_brain
           (mkState (d_pos debris_300) zeros3) (1 / 10)).
  discriminate.
Defined.

(** ** The grabbing system over a tick *)








(** ** Telemetry and controllers over a tick *)

Section ControlOutputs.
Context `{Controls}.

Variable b : AIBrain.
Variable st : StateVec.
Variable dt : R.
Variable target : option Vec3.

(** What the control computation returns, phase by phase, when the
    approach phases come with a target. *)
Lemma control_by_phase_outputs (telemetry : Telemetry) u t b3 :
  (target = None -> ~ In (phase b) [COARSE_APPROACH; FINE_APPROACH; CAPTURE]) ->
  t_control_mode telemetry = None ->
  t_error telemetry = None ->
  control_by_phase b st dt target telemetry = Returned (u, t, b3) ->
  t_control_mode t = mode_of_phase (phase b) /\
  t_error t = None /\
  (In (phase b) [PAYLOAD_DEPLOYED; SEEKING_DEBRIS; RETRACTING; COMPLETE] -> u = zeros3).
Proof.
  intros Htgt Hm He. unfold control_by_phase.
  destruct (phase b) eqn:Hph; destruct target as [tgt|];
    try (exfalso; apply Htgt; [reflexivity | cbn; tauto]).
  all: try destruct (lqr_compute_control (lqr b) st tgt) as [ul cl].
  all: try destruct (mpc_compute_control (mpc b) st tgt) as [um cm].
  all: try (destruct (smc_compute_control (smc b) st tgt) as [us cs];
            destruct (adaptive_compute_control (adaptive b) st tgt us) as [ua ca]).
  all: try (destruct (target_debris b); [|discriminate]).
  all: intros E; cbv beta iota zeta in E; injection E as <- <- <-; cbn;
    rewrite ?Hm, ?He.
  all: repeat split; auto.
  all: intros [X | [X | [X | [X | []]]]]; discriminate X.
Qed.

(** Which controller objects the control computation writes. *)
Lemma control_by_phase_controllers (telemetry : Telemetry) u t b3 :
  control_by_phase b st dt target telemetry = Returned (u, t, b3) ->
  (phase b <> COARSE_APPROACH -> lqr b3 = lqr b) /\
  (phase b <> FINE_APPROACH -> mpc b3 = mpc b) /\
  (phase b <> CAPTURE -> smc b3 = smc b /\ adaptive b3 = adaptive b).
Proof.
  unfold control_by_phase.
  destruct (phase b) eqn:Hph; destruct target as [tgt|].
  all: try destruct (lqr_compute_control (lqr b) st tgt) as [ul cl].
  all: try destruct (mpc_compute_control (mpc b) st tgt) as [um cm].
  all: try (destruct (smc_compute_control (smc b) st tgt) as [us cs];
            destruct (adaptive_compute_control (adaptive b) st tgt us) as [ua ca]).
  all: try (destruct (target_debris b); [|discriminate]).
  all: intros E; cbv beta iota zeta in E; injection E as <- <- <-.
  all: repeat split; intros; try congruence; try reflexivity.
  all: now destruct (Rltb _ _).
Qed.

End ControlOutputs.

Lemma identify_target_keeps_controllers `{Controls} (b : AIBrain) (st : StateVec) :
  lqr (identify_target b st) = lqr b /\
  mpc (identify_target b st) = mpc b /\
  smc (identify_target b st) = smc b /\
  adaptive (identify_target b st) = adaptive b.
Proof.
  unfold identify_target.
  destruct (target_debris b); [now repeat split|].
  destruct (debris_catalog b); [now repeat split|].
  cbn [target_debris set_target_debris].
  destruct (identify_nearest_debris st _); now repeat split.
Qed.

(** X28. On a tick that passes the power check the telemetry has no
    ["error"] entry and its control mode goes with the phase the brain is
    left in: LQR for [COARSE_APPROACH], MPC for [FINE_APPROACH],
    SMC+Adaptive for [CAPTURE], retract for [RETRACTING], reentry for
    [REENTRY], none for the others; and in [PAYLOAD_DEPLOYED],
    [SEEKING_DEBRIS], [RETRACTING] and [COMPLETE] the acceleration
    returned is zero. *)
Theorem tick_control_mode `{Controls} (b : AIBrain) (st : StateVec) (dt : R) :
  can_support (power b) 5 = true ->
  exists u t b',
    compute_control b st dt = Returned (u, t, b') /\
    t_control_mode t = mode_of_phase (phase b') /\
    t_error t = None /\
    (In (phase b') [PAYLOAD_DEPLOYED; SEEKING_DEBRIS; RETRACTING; COMPLETE] ->
     u = zeros3).
Proof.
  intros Hc.
  destruct (powered_tick b st dt Hc) as (u & t & b3 & Hcbp & Heq & Hph3 & _).
  exists u, t, (consume b3 u dt). split; [exact Heq|].
  change (phase (consume b3 u dt)) with (phase b3). rewrite Hph3.
  set (b1 := identify_target (set_state b st) st) in *.
  set (target := option_map d_pos (target_debris b1)) in *.
  set (b2 := set_phase b1 (decide_phase b1 st target)) in *.
  apply (control_by_phase_outputs b2 st dt target
           (mkTelemetry (phase_value (phase b)) None None) u t b3);
    [| reflexivity | reflexivity | exact Hcbp].
  intros Ht. subst b2. rewrite Ht. cbn.
  intros [X | [X | [X | []]]]; discriminate X.
Qed.

Lemma tick_control_mode_witness :
  exists u t b',
    compute_control fresh_brain origin (1 / 10) = Returned (u, t, b') /\
    t_control_mode t = mode_of_phase (phase b') /\
    t_error t = None /\
    (In (phase b') [PAYLOAD_DEPLOYED; SEEKING_DEBRIS; RETRACTING; COMPLETE] ->
     u = zeros3).
Proof.
  apply (tick_control_mode fresh_brain origin (1 / 10)).
  exact can_support_init.
Defined.

(** X29. Each controller runs in its own phase only: a tick that leaves
    the brain in a phase other than [COARSE_APPROACH] has not touched the
    LQR controller, other than [FINE_APPROACH] the MPC controller, other
    than [CAPTURE] the sliding-mode and adaptive controllers. *)
Theorem controllers_by_phase `{Controls} (b : AIBrain) (st : StateVec) (dt : R) :
  exists u t b',
    compute_control b st dt = Returned (u, t, b') /\
    (phase b' <> COARSE_APPROACH -> lqr b' = lqr b) /\
    (phase b' <> FINE_APPROACH -> mpc b' = mpc b) /\
    (phase b' <> CAPTURE -> smc b' = smc b /\ adaptive b' = adaptive b).
Proof.
  destruct (can_support (power b) 5) eqn:Hc;
    [|rewrite (compute_control_low b st dt Hc); eexists _, _, _;
      split; [reflexivity | now repeat split]].
  destruct (powered_tick b st dt Hc) as (u & t & b3 & Hcbp & Heq & Hph3 & _).
  exists u, t, (consume b3 u dt). split; [exact Heq|].
  change (phase (consume b3 u dt)) with (phase b3). rewrite Hph3.
  change (lqr (consume b3 u dt)) with (lqr b3).
  change (mpc (consume b3 u dt)) with (mpc b3).
  change (smc (consume b3 u dt)) with (smc b3).
  change (adaptive (consume b3 u dt)) with (adaptive b3).
  destruct (identify_target_keeps_controllers (set_state b st) st)
    as (Kl & Km & Ks & Ka).
  destruct (control_by_phase_controllers _ st dt _ _ u t b3 Hcbp) as (Cl & Cm & Cs).
  cbn [lqr mpc smc adaptive set_phase] in Cl, Cm, Cs.
  rewrite Kl in Cl. rewrite Km in Cm. rewrite Ks, Ka in Cs.
  split; [exact Cl | split; [exact Cm | exact Cs]].
Qed.

(** X30. The advisory fuel check never turns back on: if [has_fuel()]
    holds after a thrust call, it held before it. *)
Theorem has_fuel_never_recovers (p : PropulsionSystem) (accel : Vec3) :
  propulsion_configured p -> 0 <= fuel_kg p ->
  has_fuel (snd (thrust_from_acceleration p accel)) = true ->
  has_fuel p = true.
Proof.
  intros Hcfg Hfuel Hh. unfold has_fuel in *.
  apply Rgtb_true in Hh. apply Rgtb_true.
  rewrite fuel_after_thrust in Hh.
  pose proof (fuel_used_nonneg p accel Hcfg) as Hused.
  assert (0 <= Rmin (snd (fst (thrust_from_acceleration p accel))) (fuel_kg p))
    by (apply Rmin_glb; lra).
  lra.
Qed.

(** The stage after a call for 0.1 m/s² along the first axis, 400 N: the
    tank is down by [400 / (300 * 9.81) * 0.1] kg and the check passes, as
    it did before. *)
Lemma has_fuel_never_recovers_witness :
  fuel_kg (snd (thrust_from_acceleration (PropulsionSystem_init 4000)
                  (mkVec3 (1 / 10) 0 0)))
    = 500 - 400 / (300 * 9.81) * (1 / 10) /\
  has_fuel (PropulsionSystem_init 4000) = true.
Proof.
  set (p := PropulsionSystem_init 4000). set (a := mkVec3 (1 / 10) 0 0).
  assert (Hcfg : propulsion_configured p) by apply PropulsionSystem_init_configured.
  assert (Hmag : norm (vscale (mass_kg p) a) = 400)
    by (subst p a; rewrite norm_first_force by lra; lra).
  assert (Hforce : fst (fst (thrust_from_acceleration p a)) = vscale (mass_kg p) a).
  { rewrite (thrust_force_cases p a Hcfg), Hmag. pose proof sqrt3_ge_1.
    assert (Hg : Rgtb 400 (sqrt 3 * 450) = false) by (apply Rgtb_false; lra).
    assert (Hl : Rltb 400 50 = false) by (apply Rltb_false; lra).
    now rewrite Hg, Hl. }
  assert (Hused : snd (fst (thrust_from_acceleration p a))
                  = 400 / (300 * 9.81) * (1 / 10)).
  { change (snd (fst (thrust_from_acceleration p a)))
      with (norm (fst (fst (thrust_from_acceleration p a)))
            / (isp p * 9.81) * (1 / 10)).
    rewrite Hforce, Hmag. reflexivity. }
  assert (Hsmall : 0 < 400 / (300 * 9.81) * (1 / 10) < 1).
  { split.
    - apply Rmult_lt_0_compat; [|lra].
      apply Rmult_lt_0_compat; [lra | apply Rinv_0_lt_compat; lra].
    - apply (Rmult_lt_reg_r (300 * 9.81)); [lra|].
      replace (400 / (300 * 9.81) * (1 / 10) * (300 * 9.81)) with 40 by (field; lra).
      lra. }
  assert (Hfuel : fuel_kg (snd (thrust_from_acceleration p a))
                  = 500 - 400 / (300 * 9.81) * (1 / 10)).
  { rewrite fuel_after_thrust, Hused.
    change (fuel_kg p) with 500. rewrite Rmin_left by lra. reflexivity. }
  split; [exact Hfuel|].
  apply (has_fuel_never_recovers p a Hcfg); [change (fuel_kg p) with 500; lra|].
  unfold has_fuel. apply Rgtb_true. rewrite Hfuel. lra.
Defined.

(** * The subsystems in binary64 *)

Lemma sqrt_lt_of_square (x y : R) : 0 <= x -> 0 < y -> x < y * y -> sqrt x < y.
Proof.
  intros Hx Hy Hlt. rewrite <- (sqrt_square y) by lra.
  apply sqrt_lt_1_alt. lra.
Qed.

Lemma cap_as_root : sqrt 3 * 450 = sqrt 607500.
Proof.
  rewrite <- (sqrt_square 450) at 1 by lra.
  rewrite <- sqrt_mult by lra. f_equal. lra.
Qed.

(** The force the stage returns for 0.263 m/s² along the first axis, and
    its cap, as mantissa and exponent: [6855876010154850 * 2^-43], that is
    779.4228634059948, against [6855876010154849 * 2^-43]. *)
Lemma force_0263 :
  let f := fst (fst (Binary64.thrust_from_acceleration
                       Binary64.stage Binary64.accel_0263)) in
  FloatOps.Prim2SF (Binary64.cx f)
    = SpecFloat.S754_finite false 6855876010154850 (-43) /\
  FloatOps.Prim2SF (Binary64.cy f) = SpecFloat.S754_zero false /\
  FloatOps.Prim2SF (Binary64.cz f) = SpecFloat.S754_zero false /\
  FloatOps.Prim2SF (Binary64.f_max Binary64.stage)
    = SpecFloat.S754_finite false 6855876010154849 (-43).
Proof. vm_compute. repeat split. Qed.

Lemma mantissa_value (m : positive) :
  IZR (Z.pos m) * powerRZ 2 (-43) = IZR (Z.pos m) / 8796093022208.
Proof.
  cbn [powerRZ]. rewrite pow_IZR.
  replace (2 ^ Z.of_nat (Pos.to_nat 43))%Z with 8796093022208%Z
    by (vm_compute; reflexivity).
  reflexivity.
Qed.

(** C4.  In binary64 the clamp of [thrust_from_acceleration] misses its
    own cap: for the stage of 4000 kg asked for 0.263 m/s² along the first
    axis (1052 N), the force returned is [779.4228634059948, 0, 0], whose
    magnitude the code itself finds above its [f_max], and which is above
    [sqrt 3 * 450] as a real number. *)
Theorem thrust_exceeds_cap_binary64 :
  let p := Binary64.stage in
  let f := fst (fst (Binary64.thrust_from_acceleration p Binary64.accel_0263)) in
  PrimFloat.ltb (Binary64.f_max p) (Binary64.norm f) = true /\
  float_value (Binary64.f_max p) < norm (vec_value f) /\
  sqrt 3 * 450 < norm (vec_value f).
Proof.
  intros p f.
  destruct force_0263 as (Hx & Hy & Hz & Hm). fold p f in Hx, Hy, Hz, Hm.
  assert (Hv : vec_value f = mkVec3 (6855876010154850 / 8796093022208) 0 0).
  { unfold vec_value, float_value. rewrite Hx, Hy, Hz.
    now rewrite mantissa_value. }
  assert (Hn : norm (vec_value f) = 6855876010154850 / 8796093022208).
  { rewrite Hv, norm_axis. apply Rabs_right. lra. }
  split; [vm_compute; reflexivity|].
  rewrite Hn. split.
  - unfold float_value. rewrite Hm, mantissa_value. lra.
  - rewrite cap_as_root. apply sqrt_lt_of_square; lra.
Qed.

(** A drained battery in binary64: at 1.12 % of charge, asked for 10 kW
    over five hours, the drained branch takes [soc * capacity / capacity]
    off [soc] and leaves [2^-59], about 1.7e-18, which the code finds
    above 0. *)
Example request_power_residue_binary64 :
  let p := snd (Binary64.request_power Binary64.low_battery
                  Binary64.ten_kw Binary64.five_hours) in
  FloatOps.Prim2SF (Binary64.soc p)
    = SpecFloat.S754_finite false 4503599627370496 (-111) /\
  PrimFloat.ltb PrimFloat.zero (Binary64.soc p) = true.
Proof. vm_compute. split; reflexivity. Qed.
